(** * Data_Insights_Agent/app.py: the insight generation core

    A shallow embedding of the helper functions and insight rules of
    [app.py] (load_data, detect_date_column, classify_domain, growth_rate,
    detect_outliers, finance_insights, marketing_insights,
    rewrite_insights and the order in which the page calls them), and the
    properties of the written specification stated over it.

    Floating-point numbers are IEEE 754 binary64 values, as the cells of a
    pandas float64 column are: [spec_float] of the Standard Library at
    precision 53 and maximal exponent 1024, so every definition evaluates.
    The cells of an int64 or uint64 column are integers, and the
    arithmetic on them wraps around as numpy's does. Strings are strings
    of ASCII characters. *)

From Stdlib Require Import ZArith List String Ascii Bool Lia.
From Stdlib Require Import Sorting.Permutation.
From Stdlib Require Import Floats.SpecFloat.
From Stdlib Require Import DecimalString.
Import ListNotations.

Open Scope string_scope.
Open Scope Z_scope.

(** ** binary64 arithmetic *)

Module F64.

Definition prec : Z := 53.
Definition emax : Z := 1024.

Definition t : Type := spec_float.

Definition nan : t := S754_nan.
Definition of_Z (z : Z) : t := binary_normalize prec emax z 0 false.

Definition add : t -> t -> t := SFadd prec emax.
Definition sub : t -> t -> t := SFsub prec emax.
Definition mul : t -> t -> t := SFmul prec emax.
Definition div : t -> t -> t := SFdiv prec emax.
Definition sqrt : t -> t := SFsqrt prec emax.
Definition abs : t -> t := SFabs.

Definition eqb : t -> t -> bool := SFeqb.
Definition ltb : t -> t -> bool := SFltb.

(** Python's [a > b] on floats. *)
Definition gtb (a b : t) : bool := ltb b a.

(** [np.isnan]. *)
Definition isnan (x : t) : bool :=
  match x with S754_nan => true | _ => false end.

(** Nearest integer to [num / den], ties to even ([0 <= num], [0 < den]). *)
Definition round_half_even (num den : Z) : Z :=
  let q := num / den in
  match (2 * (num mod den)) ?= den with
  | Lt => q
  | Gt => q + 1
  | Eq => if Z.even q then q else q + 1
  end.

(** Tenths in [m * 2^e], correctly rounded: what [format(x, ".1f")]
    prints, without the decimal point. *)
Definition tenths (m : positive) (e : Z) : Z :=
  if 0 <=? e then Zpos m * 2 ^ e * 10
  else round_half_even (Zpos m * 10) (2 ^ (- e)).

Definition digits (z : Z) : string :=
  NilZero.string_of_uint (N.to_uint (Z.to_N z)).

Definition sign (s : bool) : string := if s then "-" else "".

(** [f"{x:.1f}"]. *)
Definition format_1f (x : t) : string :=
  match x with
  | S754_nan => "nan"
  | S754_infinity s => sign s ++ "inf"
  | S754_zero s => sign s ++ "0.0"
  | S754_finite s m e =>
      let n := tenths m e in
      sign s ++ digits (n / 10) ++ "." ++ digits (n mod 10)
  end.

End F64.

(** ** Python strings (ASCII) *)

Module PyStr.

Definition is_upper (c : ascii) : bool :=
  let n := nat_of_ascii c in (Nat.leb 65 n && Nat.leb n 90)%bool.

Definition is_lower (c : ascii) : bool :=
  let n := nat_of_ascii c in (Nat.leb 97 n && Nat.leb n 122)%bool.

Definition to_lower (c : ascii) : ascii :=
  if is_upper c then ascii_of_nat (nat_of_ascii c + 32) else c.

Definition to_upper (c : ascii) : ascii :=
  if is_lower c then ascii_of_nat (nat_of_ascii c - 32) else c.

(** [s.lower()]. *)
Fixpoint lower (s : string) : string :=
  match s with
  | EmptyString => EmptyString
  | String c s' => String (to_lower c) (lower s')
  end.

(** [s.title()]: a letter that follows a letter is lowered, any other
    letter is raised; [cased] tells whether the previous character was a
    letter. *)
Fixpoint title_from (cased : bool) (s : string) : string :=
  match s with
  | EmptyString => EmptyString
  | String c s' =>
      if (is_upper c || is_lower c)%bool
      then String (if cased then to_lower c else to_upper c)
                  (title_from true s')
      else String c (title_from false s')
  end.

Definition title (s : string) : string := title_from false s.

(** [k in s] on strings: [k] occurs in [s] as a substring. *)
Fixpoint contains (k s : string) : bool :=
  (String.prefix k s
   || match s with
      | EmptyString => false
      | String _ s' => contains k s'
      end)%bool.

(** [s.endswith(suffix)]. *)
Fixpoint ends_with (suffix s : string) : bool :=
  (String.eqb suffix s
   || match s with
      | EmptyString => false
      | String _ s' => ends_with suffix s'
      end)%bool.

(** [sep.join(l)]. *)
Definition join (sep : string) (l : list string) : string :=
  String.concat sep l.

End PyStr.

(** ** Exceptions *)

Inductive exn := IndexError | KeyError | TypeError | AttributeError.

Inductive result (A : Type) : Type :=
| Ok (a : A)
| Raise (e : exn).

Arguments Ok {A} a.
Arguments Raise {A} e.

Definition bind {A B : Type} (r : result A) (k : A -> result B) : result B :=
  match r with
  | Ok a => k a
  | Raise e => Raise e
  end.

Notation "x <- r ;; k" := (bind r (fun x => k))
  (at level 61, r at next level, right associativity).

(** ** Domain classification *)

Inductive Domain := Finance | Marketing.

(** A column label as [df.columns] yields it: a string, or an integer,
    which is what [read_json] and [read_excel] give to columns that come
    without a name. *)
Inductive label :=
| LStr (s : string)
| LInt (n : Z).

Definition finance_keywords : list string :=
  ["revenue"; "sales"; "profit"; "margin"; "cost"; "expense"; "ebitda"].

Definition marketing_keywords : list string :=
  ["leads"; "conversion"; "ctr"; "cac"; "traffic"; "churn"; "retention"].

(** [any(k in name for k in keywords)]. *)
Definition has_keyword (keywords : list string) (name : string) : bool :=
  existsb (fun k => PyStr.contains k name) keywords.

(** [any(k in col.lower() for k in keywords)]: [col.lower()] is evaluated
    for the first keyword, and an integer has no [lower]. *)
Definition matches (keywords : list string) (col : label) : result bool :=
  match keywords, col with
  | [], _ => Ok false
  | _ :: _, LStr s => Ok (has_keyword keywords (PyStr.lower s))
  | _ :: _, LInt _ => Raise AttributeError
  end.

(** [sum(any(...) for col in columns)]: [True] counts for 1; the sum stops
    at the first label that raises. *)
Definition score (keywords : list string) (columns : list label) : result Z :=
  fold_left
    (fun acc col =>
       total <- acc ;;
       hit <- matches keywords col ;;
       Ok (total + (if hit then 1 else 0)))
    columns (Ok 0).

Definition finance_score : list label -> result Z := score finance_keywords.
Definition marketing_score : list label -> result Z :=
  score marketing_keywords.

Definition classify_domain (columns : list label) : result Domain :=
  finance <- finance_score columns ;;
  marketing <- marketing_score columns ;;
  Ok (if finance >=? marketing then Finance else Marketing).

(** ** The pandas objects the program uses *)

(** The cells of a numeric column by dtype: float64 with NaN for a missing
    cell, int64, uint64. An integer column has no missing cell. *)
Inductive numeric :=
| Float64 (vals : list F64.t)
| Int64 (vals : list Z)
| UInt64 (vals : list Z).

(** A column (a pandas Series): numeric, object holding strings with
    [None] for a missing cell (the NaN that [read_csv] leaves there), or
    datetime64[ns] holding nanoseconds since the epoch with [None] for
    NaT. *)
Inductive column :=
| NumCol (vals : numeric)
| TextCol (vals : list (option string))
| TimeCol (vals : list (option Z)).

(** A DataFrame whose labels are strings: its columns in their order. The
    loaders give each column a label of its own. *)
Definition dataframe : Type := list (string * column).

(** The names of [df.columns]. *)
Definition columns (df : dataframe) : list string := map fst df.

(** [df.columns]. *)
Definition labels (df : dataframe) : list label := map LStr (columns df).

(** [name in df.columns]. *)
Definition has_col (name : string) (df : dataframe) : bool :=
  existsb (String.eqb name) (columns df).

Fixpoint get_col (name : string) (df : dataframe) : option column :=
  match df with
  | [] => None
  | (n, c) :: df' => if String.eqb name n then Some c else get_col name df'
  end.

(** [df[name]]. *)
Definition getitem (name : string) (df : dataframe) : result column :=
  match get_col name df with
  | Some c => Ok c
  | None => Raise KeyError
  end.

(** [df[name] = c]: the column of that name is replaced where it stands; a
    new name is added at the end. *)
Fixpoint set_col (name : string) (c : column) (df : dataframe) : dataframe :=
  match df with
  | [] => [(name, c)]
  | (n, c0) :: df' =>
      if String.eqb name n then (n, c) :: df'
      else (n, c0) :: set_col name c df'
  end.

(** [df.select_dtypes(include="number")]: the numeric columns. *)
Fixpoint select_number (df : dataframe) : list (string * numeric) :=
  match df with
  | [] => []
  | (n, NumCol vals) :: df' => (n, vals) :: select_number df'
  | _ :: df' => select_number df'
  end.

(** [len(l)]. *)
Definition len {A : Type} (l : list A) : Z := Z.of_nat (List.length l).

(** [l.append(x)]. *)
Definition append {A : Type} (l : list A) (x : A) : list A := (l ++ [x])%list.

(** [series.notna()], cell by cell. *)
Definition notna (x : F64.t) : bool := negb (F64.isnan x).

(** [series.dropna()] on float64 cells. *)
Definition dropna (vals : list F64.t) : list F64.t := filter notna vals.

(** [series.dropna()] on a numeric series. *)
Definition num_dropna (series : numeric) : numeric :=
  match series with
  | Float64 vals => Float64 (dropna vals)
  | Int64 vals => Int64 vals
  | UInt64 vals => UInt64 vals
  end.

(** [len(series)] on a numeric series. *)
Definition num_len (series : numeric) : Z :=
  match series with
  | Float64 vals => len vals
  | Int64 vals => len vals
  | UInt64 vals => len vals
  end.

(** [series.astype("float64")]: each integer goes to the nearest float. *)
Definition to_float64 (series : numeric) : list F64.t :=
  match series with
  | Float64 vals => vals
  | Int64 vals => map F64.of_Z vals
  | UInt64 vals => map F64.of_Z vals
  end.

(** The first and the last cell that is not missing, in column order. *)
Definition first_valid (vals : list F64.t) : option F64.t := find notna vals.
Definition last_valid (vals : list F64.t) : option F64.t :=
  find notna (rev vals).

(** The result of an int64 or uint64 operation, which wraps around. *)
Definition wrap_int64 (z : Z) : Z := (z + 2 ^ 63) mod 2 ^ 64 - 2 ^ 63.
Definition wrap_uint64 (z : Z) : Z := z mod 2 ^ 64.

Definition zero : F64.t := F64.of_Z 0.
Definition two : F64.t := F64.of_Z 2.
Definition five : F64.t := F64.of_Z 5.
Definition ten : F64.t := F64.of_Z 10.
Definition hundred : F64.t := F64.of_Z 100.
Definition minus_five : F64.t := F64.of_Z (-5).
Definition minus_ten : F64.t := F64.of_Z (-10).

(** [values.sum()], the cells added in column order from 0.0. numpy adds
    long columns in another order, which can change the last bits of the
    sum. *)
Definition fsum (vals : list F64.t) : F64.t := fold_left F64.add vals zero.

(** [series.mean()]: missing cells are skipped. *)
Definition mean (series : list F64.t) : F64.t :=
  let v := dropna series in
  F64.div (fsum v) (F64.of_Z (len v)).

(** pandas' variance with [ddof] delta degrees of freedom: the squared
    distances to the mean, summed and divided by [len - ddof]; NaN when
    there are no more than [ddof] cells. *)
Definition var (ddof : Z) (series : list F64.t) : F64.t :=
  let v := dropna series in
  if len v <=? ddof then F64.nan
  else
    let avg := F64.div (fsum v) (F64.of_Z (len v)) in
    let sqr := map (fun x => let d := F64.sub avg x in F64.mul d d) v in
    F64.div (fsum sqr) (F64.of_Z (len v - ddof)).

Definition std_ddof (ddof : Z) (series : list F64.t) : F64.t :=
  F64.sqrt (var ddof series).

(** [series.std()]: pandas' default is [ddof=1], the sample standard
    deviation. *)
Definition std (series : list F64.t) : F64.t := std_ddof 1 series.

(** [series[mask]]. *)
Fixpoint select (series : list F64.t) (mask : list bool) : list F64.t :=
  match series, mask with
  | x :: series', b :: mask' =>
      if b then x :: select series' mask' else select series' mask'
  | _, _ => []
  end.

(** ** Metric helpers *)

(** [(last - first) / abs(first) * 100] on the two ends of a series of
    each dtype. On integers the subtraction and [abs] are integer
    operations, which wrap around, and the division is the true division
    of the two results as floats. *)
Definition float_growth (first last_ : F64.t) : F64.t :=
  F64.mul (F64.div (F64.sub last_ first) (F64.abs first)) hundred.

Definition int_growth (wrap : Z -> Z) (first last_ : Z) : F64.t :=
  F64.mul
    (F64.div (F64.of_Z (wrap (last_ - first))) (F64.of_Z (wrap (Z.abs first))))
    hundred.

(** [growth_rate(series)]. [series.iloc[0]] raises IndexError on an empty
    series. A string never equals 0 and has no subtraction, also against a
    missing cell; two missing cells, which are NaN, give NaN. A Timestamp
    (or NaT) never equals 0 and has no [abs]. *)
Definition growth_rate (series : column) : result F64.t :=
  match series with
  | NumCol (Float64 []) => Raise IndexError
  | NumCol (Float64 (first :: rest)) =>
      if F64.eqb first zero then Ok F64.nan
      else Ok (float_growth first (last rest first))
  | NumCol (Int64 []) => Raise IndexError
  | NumCol (Int64 (first :: rest)) =>
      if first =? 0 then Ok F64.nan
      else Ok (int_growth wrap_int64 first (last rest first))
  | NumCol (UInt64 []) => Raise IndexError
  | NumCol (UInt64 (first :: rest)) =>
      if first =? 0 then Ok F64.nan
      else Ok (int_growth wrap_uint64 first (last rest first))
  | TextCol [] => Raise IndexError
  | TextCol (first :: rest) =>
      match first, last rest first with
      | None, None => Ok F64.nan
      | _, _ => Raise TypeError
      end
  | TimeCol [] => Raise IndexError
  | TimeCol (_ :: _) => Raise TypeError
  end.

(** The z-scores of [detect_outliers] against a standard deviation with
    [ddof] delta degrees of freedom. *)
Definition z_scores_ddof (ddof : Z) (series : list F64.t) : list F64.t :=
  map (fun x => F64.div (F64.sub x (mean series)) (std_ddof ddof series))
      series.

Definition outliers_ddof (ddof : Z) (series : list F64.t) : list F64.t :=
  if F64.eqb (std_ddof ddof series) zero then []
  else
    select series
           (map (fun z => F64.gtb (F64.abs z) two)
                (z_scores_ddof ddof series)).

(** [detect_outliers(series)] on the float64 cells in which pandas
    computes [mean()], [std()] and the z-scores: [series.std()] is pandas'
    default, [ddof=1]. *)
Definition detect_outliers (series : list F64.t) : list F64.t :=
  outliers_ddof 1 series.

(** The specification's wording of outlier detection: the same steps
    against the population standard deviation ([ddof=0]). *)
Definition detect_outliers_population (series : list F64.t) : list F64.t :=
  outliers_ddof 0 series.

(** ** Insight rules *)

Definition increased_sentence (col : string) (growth : F64.t) : string :=
  PyStr.title col ++ " increased by " ++ F64.format_1f growth
    ++ "% over the period.".

Definition declined_sentence (col : string) (growth : F64.t) : string :=
  PyStr.title col ++ " declined by " ++ F64.format_1f (F64.abs growth)
    ++ "% over the period.".

Definition volatility_sentence (col : string) : string :=
  PyStr.title col ++ " showed unusual spikes or drops, indicating volatility.".

Definition margin_sentence : string :=
  "Costs grew faster than revenue, leading to margin pressure.".

(** Lines 86-90: the growth sentence of one column, appended to
    [insights]. *)
Definition growth_rule (col : string) (growth : F64.t)
    (insights : list string) : list string :=
  if negb (F64.isnan growth) then
    if F64.gtb growth five then append insights (increased_sentence col growth)
    else if F64.ltb growth minus_five
         then append insights (declined_sentence col growth)
         else insights
  else insights.

(** Lines 92-94; an integer series is cast to float64 by [mean()],
    [std()] and the subtraction of the mean. *)
Definition volatility_rule (col : string) (series : numeric)
    (insights : list string) : list string :=
  if (0 <? len (detect_outliers (to_float64 series))) then
    append insights (volatility_sentence col)
  else insights.

(** The body of the loop over the numeric columns, lines 80-94. *)
Definition column_step (col : string) (vals : numeric)
    (insights : list string) : result (list string) :=
  let series := num_dropna vals in
  if num_len series <? 2 then Ok insights
  else
    growth <- growth_rate (NumCol series) ;;
    Ok (volatility_rule col series (growth_rule col growth insights)).

Fixpoint column_loop (numeric_cols : list (string * numeric))
    (insights : list string) : result (list string) :=
  match numeric_cols with
  | [] => Ok insights
  | (col, vals) :: cols' =>
      insights' <- column_step col vals insights ;;
      column_loop cols' insights'
  end.

(** Lines 96-101. *)
Definition margin_rule (df : dataframe) (insights : list string)
  : result (list string) :=
  if (has_col "revenue" df && has_col "cost" df)%bool then
    revenue <- getitem "revenue" df ;;
    rev_growth <- growth_rate revenue ;;
    cost <- getitem "cost" df ;;
    cost_growth <- growth_rate cost ;;
    if F64.gtb cost_growth rev_growth then Ok (append insights margin_sentence)
    else Ok insights
  else Ok insights.

Definition finance_insights (df : dataframe) : result (list string) :=
  let numeric_cols := select_number df in
  if len numeric_cols =? 0 then Ok []
  else
    insights <- column_loop numeric_cols [] ;;
    margin_rule df insights.

(** [series.iloc[-1] < series.iloc[0]], lines 110-113: floats by value
    (false against NaN), integers by value, strings by code point,
    timestamps by time (false against NaT). A string and a missing cell do
    not compare; two missing cells are two NaN. *)
Definition last_lt_first (series : column) : result bool :=
  match series with
  | NumCol (Float64 []) => Raise IndexError
  | NumCol (Float64 (first :: rest)) => Ok (F64.ltb (last rest first) first)
  | NumCol (Int64 []) => Raise IndexError
  | NumCol (Int64 (first :: rest)) => Ok (last rest first <? first)
  | NumCol (UInt64 []) => Raise IndexError
  | NumCol (UInt64 (first :: rest)) => Ok (last rest first <? first)
  | TextCol [] => Raise IndexError
  | TextCol (first :: rest) =>
      match last rest first, first with
      | Some conv_rate_end, Some conv_rate_start =>
          Ok (String.ltb conv_rate_end conv_rate_start)
      | None, None => Ok false
      | _, _ => Raise TypeError
      end
  | TimeCol [] => Raise IndexError
  | TimeCol (first :: rest) =>
      match last rest first, first with
      | Some conv_rate_end, Some conv_rate_start =>
          Ok (conv_rate_end <? conv_rate_start)
      | _, _ => Ok false
      end
  end.

Definition conversion_sentence : string :=
  "Conversion rates declined, indicating funnel efficiency issues.".
Definition traffic_up_sentence : string :=
  "Website traffic increased strongly, suggesting effective acquisition efforts.".
Definition traffic_down_sentence : string :=
  "Website traffic declined significantly, requiring channel review.".
Definition churn_sentence : string :=
  "Customer churn increased, particularly among sensitive segments.".

Definition conversion_rule (df : dataframe) (insights : list string)
  : result (list string) :=
  if (has_col "leads" df && has_col "conversion" df)%bool then
    conversion <- getitem "conversion" df ;;
    declined <- last_lt_first conversion ;;
    Ok (if declined then append insights conversion_sentence else insights)
  else Ok insights.

Definition traffic_rule (df : dataframe) (insights : list string)
  : result (list string) :=
  if has_col "traffic" df then
    traffic <- getitem "traffic" df ;;
    traffic_growth <- growth_rate traffic ;;
    Ok (if F64.gtb traffic_growth ten then append insights traffic_up_sentence
        else if F64.ltb traffic_growth minus_ten
             then append insights traffic_down_sentence
             else insights)
  else Ok insights.

Definition churn_rule (df : dataframe) (insights : list string)
  : result (list string) :=
  if has_col "churn" df then
    churn <- getitem "churn" df ;;
    churn_growth <- growth_rate churn ;;
    Ok (if F64.gtb churn_growth five then append insights churn_sentence
        else insights)
  else Ok insights.

Definition marketing_insights (df : dataframe) : result (list string) :=
  insights <- conversion_rule df [] ;;
  insights <- traffic_rule df insights ;;
  churn_rule df insights.

(** ** Narrative synthesis *)

Definition no_pattern_sentence : string :=
  "No significant patterns or changes were detected in the data.".

Definition finance_preamble : string :=
  "Financial performance analysis shows that ".
Definition finance_epilogue : string :=
  "Overall results indicate key areas impacting profitability and cost structure.".
Definition marketing_preamble : string :=
  "Marketing performance analysis indicates that ".
Definition marketing_epilogue : string :=
  "These trends highlight opportunities to improve acquisition efficiency and retention.".

Definition rewrite_insights (insights : list string) (domain : Domain)
  : string :=
  match insights with
  | [] => no_pattern_sentence
  | _ :: _ =>
      let summary := PyStr.join " " insights in
      match domain with
      | Finance => finance_preamble ++ summary ++ " " ++ finance_epilogue
      | Marketing => marketing_preamble ++ summary ++ " " ++ marketing_epilogue
      end
  end.

(** ** The temporal probe and the page's pipeline *)

(** The integer part of a float, as the cast to datetime64[ns] takes it:
    NaT for NaN, for an infinity and outside the int64 range. *)
Definition to_ns (x : F64.t) : option Z :=
  match x with
  | S754_zero _ => Some 0
  | S754_finite s m e =>
      let a := if 0 <=? e then Zpos m * 2 ^ e else Zpos m / 2 ^ (- e) in
      let n := if s then - a else a in
      if ((- 2 ^ 63 <? n) && (n <? 2 ^ 63))%bool then Some n else None
  | _ => None
  end.

(** An int64 cell as nanoseconds: the least int64 is NaT. *)
Definition int_to_ns (z : Z) : option Z :=
  if z =? - 2 ^ 63 then None else Some z.

Section Probe.

(** pandas' parser of a column of strings into timestamps; [None] when it
    raises. It is not part of this program and stays a parameter. *)
Variable parse_dates : list (option string) -> option (list (option Z)).

(** [pd.to_datetime(series)], [None] when it raises. Numbers are read as
    nanoseconds since the epoch: a float64 and an int64 column always
    convert, a uint64 column converts unless a cell is beyond the int64
    range, which is out of bounds for a timestamp. A datetime column is
    returned as it is. *)
Definition to_datetime (series : column) : option column :=
  match series with
  | NumCol (Float64 vals) => Some (TimeCol (map to_ns vals))
  | NumCol (Int64 vals) => Some (TimeCol (map int_to_ns vals))
  | NumCol (UInt64 vals) =>
      if forallb (fun z => z <? 2 ^ 63) vals
      then Some (TimeCol (map Some vals))
      else None
  | TextCol vals =>
      match parse_dates vals with
      | Some stamps => Some (TimeCol stamps)
      | None => None
      end
  | TimeCol vals => Some (TimeCol vals)
  end.

(** The loop of [detect_date_column] over [df.columns]; the frame is
    threaded through because line 35 assigns into it. *)
Fixpoint probe (cols : list string) (df : dataframe)
  : option string * dataframe :=
  match cols with
  | [] => (None, df)
  | col :: cols' =>
      match get_col col df with
      | Some series =>
          match to_datetime series with
          | Some stamps => (Some col, set_col col stamps df)
          | None => probe cols' df
          end
      | None => probe cols' df
      end
  end.

(** The column of a named pair does not coerce. *)
Definition fails (nc : string * column) : Prop :=
  to_datetime (snd nc) = None.

Definition detect_date_column (df : dataframe) : option string * dataframe :=
  probe (columns df) df.

(** Lines 166-177, once the button is pressed, on a frame whose labels are
    strings: the probe, the classification of the column labels, the rules
    of the domain, the narrative. *)
Definition pipeline (df : dataframe) : result string :=
  let (date_col, df) := detect_date_column df in
  domain <- classify_domain (labels df) ;;
  insights <-
    match domain with
    | Finance => finance_insights df
    | Marketing => marketing_insights df
    end ;;
  Ok (rewrite_insights insights domain).

End Probe.

(** ** Loading *)

Section Loading.

(** An uploaded file with its name, and pandas' three readers; neither is
    part of this program. *)
Variable File : Type.
Variable file_name : File -> string.
Variable read_csv read_excel read_json : File -> dataframe.

(** [load_data(file)]; [None] is Python's [None]. *)
Definition load_data (file : File) : option dataframe :=
  if PyStr.ends_with ".csv" (file_name file) then Some (read_csv file)
  else if PyStr.ends_with ".xlsx" (file_name file) then Some (read_excel file)
  else if PyStr.ends_with ".json" (file_name file) then Some (read_json file)
  else None.

End Loading.

(** ** Notions used in the statements *)

(** The last character of a string. *)
Fixpoint last_char (s : string) : option ascii :=
  match s with
  | EmptyString => None
  | String c s' =>
      match s' with
      | EmptyString => Some c
      | String _ _ => last_char s'
      end
  end.

(** What the step of the Finance loop adds for one column. *)
Definition column_insights (col : string) (vals : numeric) : list string :=
  match column_step col vals [] with
  | Ok insights => insights
  | Raise _ => []
  end.



(** The dtype of a column. *)
Definition is_num (c : column) : bool :=
  match c with NumCol _ => true | _ => false end.

Definition is_text (c : column) : bool :=
  match c with TextCol _ => true | _ => false end.

(** The numeric dtypes whose every column converts to timestamps. *)
Definition epoch_dtype (series : numeric) : bool :=
  match series with
  | Float64 _ | Int64 _ => true
  | UInt64 _ => false
  end.





(** What a label adds to a score, and whether it makes the score raise. *)
Definition hit (keywords : list string) (col : label) : Z :=
  match col with
  | LStr s => if has_keyword keywords (PyStr.lower s) then 1 else 0
  | LInt _ => 0
  end.

Definition hits (keywords : list string) (cols : list label) : Z :=
  fold_right (fun col total => hit keywords col + total) 0 cols.

Definition raises (keywords : list string) (col : label) : bool :=
  match keywords, col with
  | _ :: _, LInt _ => true
  | _, _ => false
  end.

(** The result of an integer operation is in the range of its dtype. *)
Definition fits_int64 (z : Z) : Prop := - 2 ^ 63 <= z < 2 ^ 63.
Definition fits_uint64 (z : Z) : Prop := 0 <= z < 2 ^ 64.

(** What a list of insights gains while the margin-pressure sentence stays
    out of the gain. *)
Definition extends_without_margin (before after : list string) : Prop :=
  exists added,
    after = (before ++ added)%list /\ ~ In margin_sentence added.

(** The frame of the first end-to-end scenario of the specification, as
    [read_csv] loads its integers, and the same frame with float cells. *)
Definition scenario1 : dataframe :=
  [("revenue", NumCol (Int64 [100; 80]));
   ("cost", NumCol (Int64 [50; 70]))].

Definition scenario1_float64 : dataframe :=
  [("revenue", NumCol (Float64 [F64.of_Z 100; F64.of_Z 80]));
   ("cost", NumCol (Float64 [F64.of_Z 50; F64.of_Z 70]))].

(** A column on which the two standard deviations disagree about 10. *)
Definition skewed : list F64.t :=
  map F64.of_Z [0; 0; 0; 0; 3; 10].

(** * Properties *)

(** ** Comparisons of binary64 values *)

Lemma compare_antisym (x y : F64.t) :
  SFcompare y x = option_map CompOpp (SFcompare x y).
Proof.
  destruct x as [sx|sx| |sx mx ex], y as [sy|sy| |sy my ey];
    try destruct sx; try destruct sy; cbn [SFcompare option_map CompOpp];
    try reflexivity.
  - rewrite (Z.compare_antisym ey ex).
    destruct (ey ?= ex); cbn [CompOpp option_map]; try reflexivity.
    rewrite (Pos.compare_cont_antisym mx my Eq). cbn [CompOpp].
    destruct (Pos.compare_cont Eq mx my); reflexivity.
  - rewrite (Z.compare_antisym ey ex).
    destruct (ey ?= ex); cbn [CompOpp option_map]; try reflexivity.
    rewrite (Pos.compare_cont_antisym mx my Eq). cbn [CompOpp].
    destruct (Pos.compare_cont Eq mx my); reflexivity.
Qed.

Lemma ltb_nan_l (x : F64.t) : F64.ltb F64.nan x = false.
Proof. reflexivity. Qed.

Lemma ltb_nan_r (x : F64.t) : F64.ltb x F64.nan = false.
Proof. destruct x as [s|s| |s m e]; try destruct s; reflexivity. Qed.

Lemma ltb_asym (x y : F64.t) : F64.ltb x y = true -> F64.ltb y x = false.
Proof.
  unfold F64.ltb, SFltb. rewrite (compare_antisym x y).
  destruct (SFcompare x y) as [[]|]; cbn [option_map CompOpp]; congruence.
Qed.

Lemma eqb_not_ltb (x y : F64.t) : F64.eqb x y = true -> F64.ltb y x = false.
Proof.
  unfold F64.eqb, F64.ltb, SFeqb, SFltb. rewrite (compare_antisym x y).
  destruct (SFcompare x y) as [[]|]; cbn [option_map CompOpp]; congruence.
Qed.

Lemma five_positive : exists m e, five = S754_finite false m e.
Proof. do 2 eexists. vm_compute. reflexivity. Qed.

Lemma minus_five_negative : exists m e, minus_five = S754_finite true m e.
Proof. do 2 eexists. vm_compute. reflexivity. Qed.

(** No value lies above 5 and below -5. *)
Lemma gt_five_not_lt_minus_five (g : F64.t) :
  F64.gtb g five = true -> F64.ltb g minus_five = false.
Proof.
  destruct five_positive as (m5 & e5 & ->).
  destruct minus_five_negative as (m5' & e5' & ->).
  unfold F64.gtb, F64.ltb, SFltb.
  destruct g as [s|s| |s m e]; try destruct s; cbn [SFcompare];
    congruence.
Qed.

Lemma isnan_nan (g : F64.t) : F64.isnan g = true -> g = F64.nan.
Proof. destruct g; simpl; intro H; [discriminate H|discriminate H|reflexivity|discriminate H]. Qed.

(** ** Domain classification *)

Lemma score_raised (keywords : list string) (cols : list label) (e : exn) :
  fold_left
    (fun acc col =>
       total <- acc ;;
       hit <- matches keywords col ;;
       Ok (total + (if hit then 1 else 0)))
    cols (Raise e)
  = Raise e.
Proof. induction cols as [|col cols IH]; [reflexivity|exact IH]. Qed.

(** The score is the number of matching labels, unless a label raises. *)
Lemma score_from (keywords : list string) (cols : list label) (acc : Z) :
  fold_left
    (fun acc col =>
       total <- acc ;;
       hit <- matches keywords col ;;
       Ok (total + (if hit then 1 else 0)))
    cols (Ok acc)
  = if existsb (raises keywords) cols then Raise AttributeError
    else Ok (acc + hits keywords cols).
Proof.
  revert acc. induction cols as [|col cols IH]; intro acc.
  - simpl. f_equal. lia.
  - change (hits keywords (col :: cols))
      with (hit keywords col + hits keywords cols).
    cbn [fold_left existsb]. cbn [bind].
    destruct keywords as [|k keywords'].
    + destruct col as [s|n]; cbn [matches raises hit orb bind];
        rewrite IH; destruct (existsb _ cols); try reflexivity;
        f_equal; unfold has_keyword; cbn [existsb]; cbv iota; lia.
    + destruct col as [s|n].
      * cbn [matches raises hit orb bind]. rewrite IH.
        destruct (existsb _ cols); [reflexivity|]. f_equal.
        destruct (has_keyword _ _); lia.
      * exact (score_raised (k :: keywords') cols AttributeError).
Qed.

Lemma score_spec (keywords : list string) (cols : list label) :
  score keywords cols
  = if existsb (raises keywords) cols then Raise AttributeError
    else Ok (hits keywords cols).
Proof. unfold score. rewrite score_from. reflexivity. Qed.

Lemma existsb_permutation {A : Type} (p : A -> bool) (l l' : list A) :
  Permutation l l' -> existsb p l = existsb p l'.
Proof.
  intro P. induction P as [|c l l' P IH|c d l|l l' l'' P1 IH1 P2 IH2].
  - reflexivity.
  - simpl. now rewrite IH.
  - simpl. destruct (p c), (p d); reflexivity.
  - now rewrite IH1.
Qed.

Lemma hits_permutation (keywords : list string) (cols cols' : list label) :
  Permutation cols cols' -> hits keywords cols = hits keywords cols'.
Proof.
  intro P. unfold hits.
  induction P as [|c l l' P IH|c d l|l l' l'' P1 IH1 P2 IH2].
  - reflexivity.
  - simpl. now rewrite IH.
  - simpl. lia.
  - now rewrite IH1.
Qed.

Lemma score_permutation (keywords : list string) (cols cols' : list label) :
  Permutation cols cols' -> score keywords cols = score keywords cols'.
Proof.
  intro P. rewrite !score_spec.
  now rewrite (existsb_permutation _ _ _ P), (hits_permutation _ _ _ P).
Qed.

(** C7: permuting the column labels changes neither the Finance score, nor
    the Marketing score, nor the Domain returned by [classify_domain]; a
    list on which the classification raises raises in every order. *)
Theorem classify_domain_permutation (cols cols' : list label) :
  Permutation cols cols' ->
  finance_score cols = finance_score cols'
  /\ marketing_score cols = marketing_score cols'
  /\ classify_domain cols = classify_domain cols'.
Proof.
  intro P. unfold classify_domain, finance_score, marketing_score.
  rewrite (score_permutation finance_keywords _ _ P),
          (score_permutation marketing_keywords _ _ P).
  repeat split.
Qed.

Lemma classify_domain_permutation_witness :
  Permutation [LStr "cost"; LStr "Leads"; LStr "CTR"]
              [LStr "CTR"; LStr "cost"; LStr "Leads"]
  /\ finance_score [LStr "cost"; LStr "Leads"; LStr "CTR"] = Ok 1
  /\ marketing_score [LStr "CTR"; LStr "cost"; LStr "Leads"] = Ok 2
  /\ classify_domain [LStr "cost"; LStr "Leads"; LStr "CTR"]
     = classify_domain [LStr "CTR"; LStr "cost"; LStr "Leads"].
Proof.
  assert (P : Permutation [LStr "cost"; LStr "Leads"; LStr "CTR"]
                          [LStr "CTR"; LStr "cost"; LStr "Leads"]).
  { apply Permutation_sym.
    apply (Permutation_cons_app [LStr "cost"; LStr "Leads"] [] (LStr "CTR")).
    apply Permutation_refl. }
  split; [exact P|].
  split; [reflexivity|].
  split; [reflexivity|].
  apply (classify_domain_permutation _ _ P).
Defined.

Lemma raises_strings (keywords : list string) (names : list string) :
  existsb (raises keywords) (map LStr names) = false.
Proof.
  induction names as [|n names IH]; [reflexivity|].
  simpl. rewrite IH. destruct keywords; reflexivity.
Qed.

Lemma raises_integer (cols : list label) (k : string) (keywords : list string) :
  existsb (raises (k :: keywords)) cols = true <-> exists n, In (LInt n) cols.
Proof.
  induction cols as [|c cols IH]; simpl.
  - split; [discriminate|intros (n & [])].
  - destruct c as [s|m]; simpl.
    + rewrite IH. split; intros (n & H); exists n; [now right|].
      destruct H as [H|H]; [discriminate H|exact H].
    + split; [intros _; exists m; now left|reflexivity].
Qed.

(** C8, as the code has it: on column labels that are strings
    [classify_domain] never raises; it returns Finance when the Finance
    score is at least the Marketing score and Marketing otherwise, and the
    names ["id"; "name"], which match no keyword of either list, are
    classified as Finance. It raises, with AttributeError, exactly when
    some label is not a string. *)
Theorem classify_domain_tie_break (names : list string) :
  (exists finance marketing,
     finance_score (map LStr names) = Ok finance
     /\ marketing_score (map LStr names) = Ok marketing
     /\ (marketing <= finance ->
         classify_domain (map LStr names) = Ok Finance)
     /\ (finance < marketing ->
         classify_domain (map LStr names) = Ok Marketing))
  /\ finance_score [LStr "id"; LStr "name"] = Ok 0
  /\ marketing_score [LStr "id"; LStr "name"] = Ok 0
  /\ classify_domain [LStr "id"; LStr "name"] = Ok Finance
  /\ (forall cols e,
        classify_domain cols = Raise e ->
        e = AttributeError /\ exists n, In (LInt n) cols)
  /\ (forall cols n,
        In (LInt n) cols -> classify_domain cols = Raise AttributeError).
Proof.
  split; [|split; [reflexivity|split; [reflexivity|split; [reflexivity|]]]].
  - exists (hits finance_keywords (map LStr names)),
           (hits marketing_keywords (map LStr names)).
    unfold classify_domain, finance_score, marketing_score.
    rewrite !score_spec, !raises_strings. cbn [bind].
    split; [reflexivity|]. split; [reflexivity|].
    split; intro H;
      destruct (Z.geb_spec (hits finance_keywords (map LStr names))
                           (hits marketing_keywords (map LStr names)));
      try reflexivity; lia.
  - split.
    + intros cols e. unfold classify_domain, finance_score, marketing_score.
      rewrite !score_spec.
      destruct (existsb (raises finance_keywords) cols) eqn:F.
      * cbn [bind]. intros [= <-]. split; [reflexivity|].
        now apply (raises_integer cols "revenue") in F.
      * cbn [bind].
        destruct (existsb (raises marketing_keywords) cols) eqn:M;
          [|discriminate].
        cbn [bind]. intros [= <-]. split; [reflexivity|].
        now apply (raises_integer cols "leads") in M.
    + intros cols n I. unfold classify_domain, finance_score.
      rewrite score_spec.
      assert (F : existsb (raises finance_keywords) cols = true)
        by (apply (raises_integer cols "revenue"); now exists n).
      now rewrite F.
Qed.

Lemma classify_domain_tie_break_witness :
  classify_domain [LStr "revenue"; LStr "churn"] = Ok Finance
  /\ classify_domain [LStr "clicks"; LStr "churn"] = Ok Marketing
  /\ classify_domain [LStr "revenue"; LInt 2024] = Raise AttributeError.
Proof.
  split; [|split].
  - destruct (proj1 (classify_domain_tie_break ["revenue"; "churn"]))
      as (f & m & F & M & Fin & _).
    apply Fin. vm_compute in F. vm_compute in M.
    injection F as <-. injection M as <-. lia.
  - destruct (proj1 (classify_domain_tie_break ["clicks"; "churn"]))
      as (f & m & F & M & _ & Mar).
    apply Mar. vm_compute in F. vm_compute in M.
    injection F as <-. injection M as <-. lia.
  - apply (proj2 (proj2 (proj2 (proj2 (proj2
             (classify_domain_tie_break []))))) _ 2024).
    right. left. reflexivity.
Defined.

(** Against C8 as written: the frame that [read_json] builds from rows
    without names has the integer labels 0 and 1, and on them
    [classify_domain] raises instead of returning a Domain. *)
Lemma classify_domain_integer_labels :
  classify_domain [LInt 0; LInt 1] = Raise AttributeError
  /\ classify_domain [LInt 0; LInt 1] <> Ok Finance
  /\ classify_domain [LInt 0; LInt 1] <> Ok Marketing.
Proof. repeat split; discriminate. Qed.

(** ** Narrative synthesis *)

(** C6: on the empty list [rewrite_insights] returns the fixed sentence; on
    a list that is not empty it returns the insights in their order, each
    kept, a single space between two neighbours, between the preamble and
    the epilogue of the domain. *)
Theorem rewrite_insights_template (i : string) (rest : list string) :
  (forall domain, rewrite_insights [] domain
     = "No significant patterns or changes were detected in the data.")
  /\ rewrite_insights (i :: rest) Finance
     = "Financial performance analysis shows that "
         ++ PyStr.join " " (i :: rest)
         ++ " Overall results indicate key areas impacting profitability and cost structure."
  /\ rewrite_insights (i :: rest) Marketing
     = "Marketing performance analysis indicates that "
         ++ PyStr.join " " (i :: rest)
         ++ " These trends highlight opportunities to improve acquisition efficiency and retention."
  /\ PyStr.join " " [i] = i
  /\ (forall j, PyStr.join " " (i :: j :: rest)
                = i ++ " " ++ PyStr.join " " (j :: rest)).
Proof.
  repeat split.
Qed.

(** ** Growth rate and the per-column Finance rules *)

Lemma find_filter {A : Type} (p : A -> bool) (l : list A) :
  find p l = hd_error (filter p l).
Proof.
  induction l as [|a l IH]; simpl; [reflexivity|].
  destruct (p a); [reflexivity|exact IH].
Qed.

Lemma last_default {A : Type} (l : list A) (a d d' : A) :
  last (a :: l) d = last (a :: l) d'.
Proof.
  revert a. induction l as [|b l IH]; intro a; [reflexivity|].
  change (last (b :: l) d = last (b :: l) d'). apply IH.
Qed.

Lemma hd_rev_last {A : Type} (rest : list A) (first : A) :
  hd_error (rev (first :: rest)) = Some (last rest first).
Proof.
  revert first. induction rest as [|b rest IH]; intro first; [reflexivity|].
  change (rev (first :: b :: rest)) with (rev (b :: rest) ++ [first])%list.
  specialize (IH b).
  destruct (rev (b :: rest)) as [|x xs] eqn:E; [discriminate IH|].
  simpl in IH |- *. rewrite IH. f_equal.
  destruct rest as [|c rest]; [reflexivity|].
  apply last_default.
Qed.

(** The ends of the series left by [dropna] are the first and the last
    cell of the column that are not missing. *)
Lemma dropna_ends (vals : list F64.t) (first last_ : F64.t) :
  first_valid vals = Some first ->
  last_valid vals = Some last_ ->
  exists rest, dropna vals = first :: rest /\ last rest first = last_.
Proof.
  unfold first_valid, last_valid, dropna.
  rewrite !find_filter, filter_rev.
  destruct (filter notna vals) as [|x rest]; [discriminate|].
  rewrite hd_rev_last. simpl. intros [= ->] [= <-].
  exists rest. split; reflexivity.
Qed.

Lemma len_ge_2 {A : Type} (l : list A) :
  2 <= len l -> exists a b rest, l = a :: b :: rest.
Proof.
  destruct l as [|a [|b rest]]; unfold len; simpl; try lia.
  intros _. now exists a, b, rest.
Qed.

(** On a series of floats that is not empty [growth_rate] returns. *)
Lemma growth_rate_num (first : F64.t) (rest : list F64.t) :
  growth_rate (NumCol (Float64 (first :: rest)))
  = Ok (if F64.eqb first zero then F64.nan
        else F64.mul
               (F64.div (F64.sub (last rest first) first) (F64.abs first))
               hundred).
Proof. simpl. destruct (F64.eqb first zero); reflexivity. Qed.

(** On a numeric series that is not empty [growth_rate] returns. *)
Lemma growth_rate_numeric (series : numeric) :
  num_len series <> 0 -> exists growth, growth_rate (NumCol series) = Ok growth.
Proof.
  destruct series as [[|x l]|[|x l]|[|x l]]; unfold num_len, len; simpl;
    try congruence; intros _.
  - destruct (F64.eqb x zero); eexists; reflexivity.
  - destruct (x =? 0); eexists; reflexivity.
  - destruct (x =? 0); eexists; reflexivity.
Qed.

Lemma growth_rule_nan (col : string) (insights : list string) :
  growth_rule col F64.nan insights = insights.
Proof. reflexivity. Qed.

Lemma wrap_int64_fits (z : Z) : fits_int64 z -> wrap_int64 z = z.
Proof.
  unfold fits_int64, wrap_int64. intro H.
  rewrite Z.mod_small; lia.
Qed.

Lemma wrap_uint64_fits (z : Z) : fits_uint64 z -> wrap_uint64 z = z.
Proof.
  unfold fits_uint64, wrap_uint64. intro H. now apply Z.mod_small.
Qed.

(** C3, as the code has it. On a float64 column, with [first] and [last_]
    the first and the last cell that are not missing, the growth rate of
    the column after [dropna] is [(last_ - first) / abs first * 100] when
    [first] is not 0 and NaN when it is 0, and the step of the loop for a
    column that starts at 0 returns without raising. On an int64 or uint64
    column, which has no missing cell, the same holds of its first and
    last cells provided [last_ - first] and [abs first] are in the range of
    the dtype; the two integers are divided as floats. A NaN growth adds
    no growth sentence. *)
Theorem growth_rate_first_last :
  (forall (vals : list F64.t) (first last_ : F64.t),
     first_valid vals = Some first ->
     last_valid vals = Some last_ ->
     (F64.eqb first zero = false ->
      growth_rate (NumCol (Float64 (dropna vals)))
      = Ok (F64.mul (F64.div (F64.sub last_ first) (F64.abs first)) hundred))
     /\ (F64.eqb first zero = true ->
         growth_rate (NumCol (Float64 (dropna vals))) = Ok F64.nan)
     /\ (forall col insights,
           F64.eqb first zero = true ->
           2 <= len (dropna vals) ->
           column_step col (Float64 vals) insights
           = Ok (volatility_rule col (Float64 (dropna vals)) insights)))
  /\ (forall (first : Z) (rest : list Z),
        fits_int64 (last rest first - first) ->
        fits_int64 (Z.abs first) ->
        (first <> 0 ->
         growth_rate (NumCol (Int64 (first :: rest)))
         = Ok (F64.mul
                 (F64.div (F64.of_Z (last rest first - first))
                          (F64.of_Z (Z.abs first)))
                 hundred))
        /\ (first = 0 ->
            growth_rate (NumCol (Int64 (first :: rest))) = Ok F64.nan))
  /\ (forall (first : Z) (rest : list Z),
        fits_uint64 (last rest first - first) ->
        fits_uint64 (Z.abs first) ->
        (first <> 0 ->
         growth_rate (NumCol (UInt64 (first :: rest)))
         = Ok (F64.mul
                 (F64.div (F64.of_Z (last rest first - first))
                          (F64.of_Z (Z.abs first)))
                 hundred))
        /\ (first = 0 ->
            growth_rate (NumCol (UInt64 (first :: rest))) = Ok F64.nan))
  /\ (forall series, num_dropna (num_dropna series) = num_dropna series)
  /\ (forall vals, num_dropna (Int64 vals) = Int64 vals)
  /\ (forall vals, num_dropna (UInt64 vals) = UInt64 vals)
  /\ (forall col insights, growth_rule col F64.nan insights = insights).
Proof.
  split; [|split; [|split; [|split; [|repeat split]]]].
  - intros vals first last_ Hf Hl.
    destruct (dropna_ends vals first last_ Hf Hl) as (rest & E & L).
    repeat split.
    + intro Z. rewrite E, growth_rate_num, Z, L. reflexivity.
    + intro Z. rewrite E, growth_rate_num, Z. reflexivity.
    + intros col insights Z H2. unfold column_step. cbn [num_dropna num_len].
      destruct (Z.ltb_spec (len (dropna vals)) 2) as [H|_]; [lia|].
      rewrite E, growth_rate_num, Z. reflexivity.
  - intros first rest Fd Fa. cbn [growth_rate]. unfold int_growth.
    rewrite (wrap_int64_fits _ Fd), (wrap_int64_fits _ Fa).
    split; intro H.
    + destruct (Z.eqb_spec first 0); [contradiction|reflexivity].
    + subst first. reflexivity.
  - intros first rest Fd Fa. cbn [growth_rate]. unfold int_growth.
    rewrite (wrap_uint64_fits _ Fd), (wrap_uint64_fits _ Fa).
    split; intro H.
    + destruct (Z.eqb_spec first 0); [contradiction|reflexivity].
    + subst first. reflexivity.
  - intros [vals|vals|vals]; cbn [num_dropna]; [|reflexivity|reflexivity].
    f_equal. unfold dropna. induction vals as [|x vals IH]; [reflexivity|].
    simpl. destruct (notna x) eqn:N; [|exact IH].
    simpl. rewrite N. now rewrite IH.
Qed.

Lemma growth_rate_first_last_witness :
  growth_rate
    (NumCol (Float64 (dropna [F64.nan; F64.of_Z 100; F64.of_Z 80; F64.nan])))
  = Ok (F64.of_Z (-20))
  /\ growth_rate (NumCol (Float64 (dropna [F64.of_Z 0; F64.of_Z 7])))
     = Ok F64.nan
  /\ growth_rate (NumCol (Int64 [50; 60; 70])) = Ok (F64.of_Z 40)
  /\ growth_rate (NumCol (UInt64 [0; 70])) = Ok F64.nan.
Proof.
  destruct growth_rate_first_last as (Float & Int & UInt & _).
  split; [|split; [|split]].
  - destruct (Float [F64.nan; F64.of_Z 100; F64.of_Z 80; F64.nan]
                    (F64.of_Z 100) (F64.of_Z 80) eq_refl eq_refl) as (H & _).
    rewrite H by reflexivity. vm_compute. reflexivity.
  - destruct (Float [F64.of_Z 0; F64.of_Z 7]
                    (F64.of_Z 0) (F64.of_Z 7) eq_refl eq_refl) as (_ & H & _).
    apply H. reflexivity.
  - destruct (Int 50 [60; 70]) as (H & _).
    + unfold fits_int64. simpl. lia.
    + unfold fits_int64. simpl. lia.
    + rewrite H by discriminate. vm_compute. reflexivity.
  - destruct (UInt 0 [70]) as (_ & H).
    + unfold fits_uint64. simpl. lia.
    + unfold fits_uint64. simpl. lia.
    + apply H. reflexivity.
Defined.

(** Against C3 as written: on the int64 column [-2^62; 2^62], whose first
    cell is not 0, [(last - first) / abs first * 100] is 200, but the int64
    subtraction wraps around to [-2^63] and [growth_rate] returns -200. *)
Lemma growth_rate_int64_wraps :
  - 2 ^ 62 <> 0
  /\ F64.mul
       (F64.div (F64.of_Z (2 ^ 62 - - 2 ^ 62)) (F64.of_Z (Z.abs (- 2 ^ 62))))
       hundred
     = F64.of_Z 200
  /\ growth_rate (NumCol (Int64 [- 2 ^ 62; 2 ^ 62])) = Ok (F64.of_Z (-200))
  /\ growth_rate (NumCol (Int64 [- 2 ^ 62; 2 ^ 62]))
     <> Ok (F64.mul
              (F64.div (F64.of_Z (2 ^ 62 - - 2 ^ 62))
                       (F64.of_Z (Z.abs (- 2 ^ 62))))
              hundred).
Proof.
  split; [discriminate|].
  split; [vm_compute; reflexivity|].
  split; [vm_compute; reflexivity|].
  vm_compute. discriminate.
Qed.

Lemma column_step_short (col : string) (vals : numeric)
    (insights : list string) :
  num_len (num_dropna vals) < 2 -> column_step col vals insights = Ok insights.
Proof.
  intro H. unfold column_step.
  destruct (Z.ltb_spec (num_len (num_dropna vals)) 2) as [_|H'];
    [reflexivity|lia].
Qed.

Lemma column_step_long (col : string) (vals : numeric)
    (insights : list string) :
  2 <= num_len (num_dropna vals) ->
  exists growth,
    growth_rate (NumCol (num_dropna vals)) = Ok growth
    /\ column_step col vals insights
       = Ok (volatility_rule col (num_dropna vals)
               (growth_rule col growth insights)).
Proof.
  intro H.
  destruct (growth_rate_numeric (num_dropna vals)) as (g & G); [lia|].
  exists g. split; [exact G|].
  unfold column_step.
  destruct (Z.ltb_spec (num_len (num_dropna vals)) 2) as [H'|_]; [lia|].
  rewrite G. reflexivity.
Qed.

(** C4: a numeric column with fewer than two cells that are not missing
    is skipped by the step of the loop, growth and volatility rules alike.
    With two or more, the growth rate is computed without raising and the
    growth rule appends the "increased" sentence when the growth is above
    5, the "declined" sentence when it is below -5, nothing when the growth
    is NaN or neither above 5 nor below -5; the two conditions never hold
    together. *)
Theorem column_growth_rule (col : string) (vals : numeric)
    (insights : list string) :
  (num_len (num_dropna vals) < 2 -> column_step col vals insights = Ok insights)
  /\ (2 <= num_len (num_dropna vals) ->
      exists growth,
        growth_rate (NumCol (num_dropna vals)) = Ok growth
        /\ column_step col vals insights
           = Ok (volatility_rule col (num_dropna vals)
                   (growth_rule col growth insights))
        /\ (F64.gtb growth five = true ->
            growth_rule col growth insights
            = append insights
                (PyStr.title col ++ " increased by "
                   ++ F64.format_1f growth ++ "% over the period."))
        /\ (F64.ltb growth minus_five = true ->
            growth_rule col growth insights
            = append insights
                (PyStr.title col ++ " declined by "
                   ++ F64.format_1f (F64.abs growth) ++ "% over the period."))
        /\ (F64.isnan growth = true
            \/ (F64.gtb growth five = false
                /\ F64.ltb growth minus_five = false) ->
            growth_rule col growth insights = insights)
        /\ ~ (F64.gtb growth five = true
              /\ F64.ltb growth minus_five = true)).
Proof.
  split; [apply column_step_short|].
  intro H. destruct (column_step_long col vals insights H) as (growth & G & S).
  exists growth. split; [exact G|]. split; [exact S|].
  split; [|split; [|split]].
  - intro Hgt. unfold growth_rule.
    destruct (F64.isnan growth) eqn:N.
    + apply isnan_nan in N. rewrite N in Hgt.
      unfold F64.gtb in Hgt. rewrite ltb_nan_r in Hgt. discriminate Hgt.
    + simpl. rewrite Hgt. reflexivity.
  - intro Hlt. unfold growth_rule.
    destruct (F64.isnan growth) eqn:N.
    + apply isnan_nan in N. rewrite N in Hlt. discriminate Hlt.
    + simpl. destruct (F64.gtb growth five) eqn:Hgt.
      * apply gt_five_not_lt_minus_five in Hgt. congruence.
      * rewrite Hlt. reflexivity.
  - intros [N|[Hgt Hlt]]; unfold growth_rule.
    + rewrite N. reflexivity.
    + rewrite Hgt, Hlt. destruct (F64.isnan growth); reflexivity.
  - intros [Hgt Hlt]. apply gt_five_not_lt_minus_five in Hgt. congruence.
Qed.

Lemma column_growth_rule_witness :
  column_step "cost" (Float64 [F64.of_Z 7]) [] = Ok []
  /\ (exists growth,
        growth_rate
          (NumCol (num_dropna (Float64 [F64.of_Z 50; F64.nan; F64.of_Z 70])))
        = Ok growth
        /\ growth_rule "cost" growth []
           = ["Cost increased by 40.0% over the period."])
  /\ exists growth,
      growth_rate (NumCol (num_dropna (Int64 [100; 90; 80]))) = Ok growth
      /\ growth_rule "revenue" growth []
         = ["Revenue declined by 20.0% over the period."].
Proof.
  split; [|split].
  - apply (proj1 (column_growth_rule "cost" (Float64 [F64.of_Z 7]) [])).
    vm_compute. reflexivity.
  - destruct (proj2 (column_growth_rule
                       "cost" (Float64 [F64.of_Z 50; F64.nan; F64.of_Z 70])
                       []))
      as (growth & G & _ & Up & _).
    + vm_compute. discriminate.
    + exists growth. split; [exact G|].
      assert (E : growth = F64.of_Z 40).
      { vm_compute in G. injection G as <-. vm_compute. reflexivity. }
      rewrite Up.
      * rewrite E. vm_compute. reflexivity.
      * rewrite E. vm_compute. reflexivity.
  - destruct (proj2 (column_growth_rule "revenue" (Int64 [100; 90; 80]) []))
      as (growth & G & _ & _ & Down & _).
    + vm_compute. discriminate.
    + exists growth. split; [exact G|].
      assert (E : growth = F64.of_Z (-20)).
      { vm_compute in G. injection G as <-. vm_compute. reflexivity. }
      rewrite Down.
      * rewrite E. vm_compute. reflexivity.
      * rewrite E. vm_compute. reflexivity.
Defined.

(** ** The margin-pressure rule *)

Lemma ends_with_refl (s : string) : PyStr.ends_with s s = true.
Proof.
  destruct s; cbn [PyStr.ends_with]; rewrite String.eqb_refl; reflexivity.
Qed.

Lemma ends_with_app (suffix a s : string) :
  PyStr.ends_with suffix s = true -> PyStr.ends_with suffix (a ++ s) = true.
Proof.
  intro H. induction a as [|c a IH]; [exact H|].
  simpl. rewrite IH. apply orb_true_r.
Qed.

(** The sentences of the per-column rules end otherwise than the
    margin-pressure sentence. *)
Lemma increased_not_margin (col : string) (g : F64.t) :
  increased_sentence col g <> margin_sentence.
Proof.
  intro E.
  assert (H : PyStr.ends_with "period." (increased_sentence col g) = true)
    by (unfold increased_sentence; do 3 apply ends_with_app; reflexivity).
  rewrite E in H. discriminate H.
Qed.

Lemma declined_not_margin (col : string) (g : F64.t) :
  declined_sentence col g <> margin_sentence.
Proof.
  intro E.
  assert (H : PyStr.ends_with "period." (declined_sentence col g) = true)
    by (unfold declined_sentence; do 3 apply ends_with_app; reflexivity).
  rewrite E in H. discriminate H.
Qed.

Lemma volatility_not_margin (col : string) :
  volatility_sentence col <> margin_sentence.
Proof.
  intro E.
  assert (H : PyStr.ends_with "volatility." (volatility_sentence col) = true)
    by (unfold volatility_sentence; apply ends_with_app; reflexivity).
  rewrite E in H. discriminate H.
Qed.

Lemma extends_refl (l : list string) : extends_without_margin l l.
Proof. exists []. split; [now rewrite app_nil_r|intros []]. Qed.

Lemma extends_append (l : list string) (s : string) :
  s <> margin_sentence -> extends_without_margin l (append l s).
Proof.
  intro N. exists [s]. split; [reflexivity|].
  intros [E|[]]. exact (N E).
Qed.

Lemma extends_trans (a b c : list string) :
  extends_without_margin a b -> extends_without_margin b c ->
  extends_without_margin a c.
Proof.
  intros (x & -> & Nx) (y & -> & Ny). exists (x ++ y)%list.
  split; [now rewrite app_assoc|].
  intro H. apply in_app_or in H. tauto.
Qed.

Lemma growth_rule_extends (col : string) (g : F64.t) (l : list string) :
  extends_without_margin l (growth_rule col g l).
Proof.
  unfold growth_rule.
  destruct (negb (F64.isnan g)); [|apply extends_refl].
  destruct (F64.gtb g five);
    [apply extends_append, increased_not_margin|].
  destruct (F64.ltb g minus_five);
    [apply extends_append, declined_not_margin|apply extends_refl].
Qed.

Lemma volatility_rule_extends (col : string) (series : numeric)
    (l : list string) :
  extends_without_margin l (volatility_rule col series l).
Proof.
  unfold volatility_rule.
  destruct (0 <? len (detect_outliers (to_float64 series)));
    [apply extends_append, volatility_not_margin|apply extends_refl].
Qed.

(** The step of the loop never raises. *)
Lemma column_step_extends (col : string) (vals : numeric)
    (l : list string) :
  exists l', column_step col vals l = Ok l' /\ extends_without_margin l l'.
Proof.
  destruct (Z.lt_ge_cases (num_len (num_dropna vals)) 2) as [H|H].
  - exists l. split; [now apply column_step_short|apply extends_refl].
  - destruct (column_step_long col vals l H) as (g & _ & S).
    eexists. split; [exact S|].
    eapply extends_trans;
      [apply growth_rule_extends|apply volatility_rule_extends].
Qed.

Lemma column_loop_extends (cols : list (string * numeric))
    (l : list string) :
  exists l', column_loop cols l = Ok l' /\ extends_without_margin l l'.
Proof.
  revert l. induction cols as [|[col vals] cols IH]; intro l.
  - exists l. split; [reflexivity|apply extends_refl].
  - destruct (column_step_extends col vals l) as (l1 & S & X1).
    destruct (IH l1) as (l2 & L & X2).
    exists l2. split; [|eapply extends_trans; eassumption].
    simpl. rewrite S. exact L.
Qed.

Lemma has_col_get_col (name : string) (df : dataframe) :
  has_col name df = match get_col name df with
                    | Some _ => true
                    | None => false
                    end.
Proof.
  unfold has_col, columns. induction df as [|[n c] df IH]; [reflexivity|].
  simpl. destruct (String.eqb name n); [reflexivity|exact IH].
Qed.

Lemma get_col_select_number (name : string) (df : dataframe)
    (vals : numeric) :
  get_col name df = Some (NumCol vals) -> select_number df <> [].
Proof.
  induction df as [|[n c] df IH]; simpl; [discriminate|].
  destruct (String.eqb name n).
  - intros [= ->]. discriminate.
  - intro H. destruct c; [discriminate|now apply IH|now apply IH].
Qed.

Lemma len_zero {A : Type} (l : list A) : (len l =? 0) = true -> l = [].
Proof. destruct l; [reflexivity|]. unfold len. simpl. discriminate. Qed.

(** A growth rate that is a number comes from a numeric column. *)
Lemma growth_rate_ok (series : column) (g : F64.t) :
  growth_rate series = Ok g ->
  F64.isnan g = false ->
  exists vals, series = NumCol vals.
Proof.
  destruct series as [vals|[|x l]|[|x l]]; simpl; try discriminate.
  - intros _ _. now exists vals.
  - destruct x as [s|]; [discriminate|].
    destruct (last l None); [discriminate|].
    intros [= <-]. discriminate.
Qed.

(** [finance_insights] is the margin-pressure rule applied to what the loop
    over the numeric columns has gathered, unless no column is numeric. *)
Lemma finance_insights_margin_rule (df : dataframe) :
  exists gathered,
    ~ In margin_sentence gathered
    /\ ((select_number df = [] /\ finance_insights df = Ok [])
        \/ (select_number df <> []
            /\ finance_insights df = margin_rule df gathered)).
Proof.
  destruct (column_loop_extends (select_number df) [])
    as (l & L & a & -> & N).
  exists a. split; [exact N|].
  unfold finance_insights.
  destruct (len (select_number df) =? 0) eqn:Z.
  - left. split; [now apply len_zero|reflexivity].
  - right. split; [intro E; rewrite E in Z; discriminate Z|].
    rewrite L. reflexivity.
Qed.

Lemma margin_rule_numeric (df : dataframe) (gathered : list string)
    (revenue cost : column) (rev_growth cost_growth : F64.t) :
  get_col "revenue" df = Some revenue ->
  get_col "cost" df = Some cost ->
  growth_rate revenue = Ok rev_growth ->
  growth_rate cost = Ok cost_growth ->
  margin_rule df gathered
  = Ok (if F64.gtb cost_growth rev_growth
        then append gathered margin_sentence else gathered).
Proof.
  intros Hrev Hcost Grev Gcost. unfold margin_rule, getitem, bind.
  rewrite !has_col_get_col, Hrev, Hcost. cbv beta iota delta [andb].
  rewrite Grev. cbv beta iota. rewrite Gcost. cbv beta iota.
  destruct (F64.gtb cost_growth rev_growth); reflexivity.
Qed.

Lemma in_append_margin (gathered : list string) (b : bool) :
  ~ In margin_sentence gathered ->
  In margin_sentence (if b then append gathered margin_sentence else gathered)
  <-> b = true.
Proof.
  intro N. destruct b.
  - split; [reflexivity|]. intros _. unfold append.
    apply in_or_app. right. now left.
  - split; [intro H; now apply N in H|discriminate].
Qed.

Lemma gtb_not_nan (x y : F64.t) :
  F64.gtb x y = true -> F64.isnan x = false /\ F64.isnan y = false.
Proof.
  unfold F64.gtb. intro H.
  destruct x as [s|s| |s m e], y as [t|t| |t m' e']; try (split; reflexivity);
    try (rewrite ltb_nan_l in H); try (rewrite ltb_nan_r in H);
    discriminate H.
Qed.

(** C5: [finance_insights] returns with the margin-pressure sentence
    exactly when the frame has a "revenue" and a "cost" column whose growth
    rates, taken on the columns as they are stored, are computed and the
    cost one is above the revenue one. Without one of the two columns the
    function returns and the sentence is absent. With both, as numeric
    columns holding a first cell, the function returns too, and the
    sentence is absent when the two growth rates are equal, when the cost
    one is lower, and when either is NaN, where the comparison is false. *)
Theorem margin_pressure_rule (df : dataframe) :
  ((exists insights,
      finance_insights df = Ok insights /\ In margin_sentence insights)
   <-> (exists revenue cost rev_growth cost_growth,
          get_col "revenue" df = Some revenue
          /\ get_col "cost" df = Some cost
          /\ growth_rate revenue = Ok rev_growth
          /\ growth_rate cost = Ok cost_growth
          /\ F64.gtb cost_growth rev_growth = true))
  /\ ((has_col "revenue" df && has_col "cost" df)%bool = false ->
      exists insights,
        finance_insights df = Ok insights /\ ~ In margin_sentence insights)
  /\ (forall revenue cost,
        get_col "revenue" df = Some (NumCol revenue) ->
        get_col "cost" df = Some (NumCol cost) ->
        num_len revenue <> 0 ->
        num_len cost <> 0 ->
        exists rev_growth cost_growth insights,
          growth_rate (NumCol revenue) = Ok rev_growth
          /\ growth_rate (NumCol cost) = Ok cost_growth
          /\ finance_insights df = Ok insights
          /\ (In margin_sentence insights
              <-> F64.gtb cost_growth rev_growth = true)
          /\ (F64.eqb cost_growth rev_growth = true ->
              ~ In margin_sentence insights)
          /\ (F64.ltb cost_growth rev_growth = true ->
              ~ In margin_sentence insights)
          /\ (F64.isnan cost_growth = true \/ F64.isnan rev_growth = true ->
              ~ In margin_sentence insights)).
Proof.
  destruct (finance_insights_margin_rule df) as (a & N & Shape).
  assert (Both : forall revenue cost rev_growth cost_growth,
             get_col "revenue" df = Some (NumCol revenue) ->
             get_col "cost" df = Some cost ->
             growth_rate (NumCol revenue) = Ok rev_growth ->
             growth_rate cost = Ok cost_growth ->
             finance_insights df
             = Ok (if F64.gtb cost_growth rev_growth
                   then append a margin_sentence else a)).
  { intros revenue cost rg cg Hrev Hcost Grev Gcost.
    destruct Shape as [[E _]|[_ ->]].
    - now apply (get_col_select_number _ _ _ Hrev) in E.
    - now apply (margin_rule_numeric df a (NumCol revenue) cost). }
  split; [|split].
  - split.
    + intros (l & F & I).
      destruct Shape as [[_ F']|[_ F']]; rewrite F' in F.
      { injection F as <-. destruct I. }
      unfold margin_rule, getitem, bind in F.
      rewrite !has_col_get_col in F.
      destruct (get_col "revenue" df) as [revenue|];
        [|injection F as <-; now apply N in I].
      destruct (get_col "cost" df) as [cost|];
        [|injection F as <-; now apply N in I].
      cbv beta iota delta [andb] in F.
      destruct (growth_rate revenue) as [rg|] eqn:Grev; [|discriminate F].
      destruct (growth_rate cost) as [cg|] eqn:Gcost; [|discriminate F].
      destruct (F64.gtb cg rg) eqn:G;
        [|injection F as <-; now apply N in I].
      exists revenue, cost, rg, cg. repeat split; assumption.
    + intros (revenue & cost & rg & cg & Hrev & Hcost & Grev & Gcost & G).
      destruct (gtb_not_nan _ _ G) as (_ & Nr).
      destruct (growth_rate_ok _ _ Grev Nr) as (rev & ->).
      eexists. split; [exact (Both _ _ _ _ Hrev Hcost Grev Gcost)|].
      now apply in_append_margin.
  - intro Hboth. destruct Shape as [[_ F]|[_ F]].
    + exists []. split; [exact F|intros []].
    + exists a. split; [|exact N].
      rewrite F. unfold margin_rule. rewrite Hboth. reflexivity.
  - intros revenue cost Hrev Hcost Lr Lc.
    destruct (growth_rate_numeric revenue Lr) as (rev_growth & Grev).
    destruct (growth_rate_numeric cost Lc) as (cost_growth & Gcost).
    pose proof (Both _ _ _ _ Hrev Hcost Grev Gcost) as F.
    pose proof (in_append_margin a (F64.gtb cost_growth rev_growth) N) as I.
    exists rev_growth, cost_growth. eexists.
    split; [exact Grev|]. split; [exact Gcost|]. split; [exact F|].
    split; [exact I|].
    split; [|split].
    + intros E H. apply I in H. unfold F64.gtb in H.
      rewrite (eqb_not_ltb _ _ E) in H. discriminate H.
    + intros Lt H. apply I in H. unfold F64.gtb in H.
      rewrite (ltb_asym _ _ Lt) in H. discriminate H.
    + intros [Nn|Nn] H; apply I in H; unfold F64.gtb in H;
        apply isnan_nan in Nn; rewrite Nn in H.
      * rewrite ltb_nan_r in H. discriminate H.
      * rewrite ltb_nan_l in H. discriminate H.
Qed.

Lemma margin_pressure_rule_witness :
  (exists insights,
     finance_insights scenario1 = Ok insights
     /\ In margin_sentence insights)
  /\ (exists insights,
        finance_insights
          [("revenue", NumCol (Float64 [F64.of_Z 100; F64.of_Z 80]))]
        = Ok insights
        /\ ~ In margin_sentence insights).
Proof.
  split.
  - destruct (proj2 (proj2 (margin_pressure_rule scenario1))
                (Int64 [100; 80]) (Int64 [50; 70]) eq_refl eq_refl)
      as (rev_growth & cost_growth & insights & Gr & Gc & F & I & _).
    + discriminate.
    + discriminate.
    + exists insights. split; [exact F|]. apply I.
      vm_compute in Gr. vm_compute in Gc.
      injection Gr as <-. injection Gc as <-.
      vm_compute. reflexivity.
  - apply (proj1 (proj2 (margin_pressure_rule
             [("revenue", NumCol (Float64 [F64.of_Z 100; F64.of_Z 80]))]))).
    vm_compute. reflexivity.
Defined.

(** ** Outlier detection *)

Lemma select_map (p : F64.t -> bool) (series : list F64.t) :
  select series (map p series) = filter p series.
Proof.
  induction series as [|x series IH]; simpl; [reflexivity|].
  destruct (p x); rewrite IH; reflexivity.
Qed.

Lemma outliers_ddof_filter (ddof : Z) (series : list F64.t) :
  outliers_ddof ddof series
  = if F64.eqb (std_ddof ddof series) zero then []
    else filter
           (fun x =>
              F64.gtb
                (F64.abs
                   (F64.div (F64.sub x (mean series)) (std_ddof ddof series)))
                two)
           series.
Proof.
  unfold outliers_ddof, z_scores_ddof.
  destruct (F64.eqb (std_ddof ddof series) zero); [reflexivity|].
  rewrite map_map. apply select_map.
Qed.

(** C2, as the code has it: on a column with at least two cells that are
    not missing, the standard deviation [detect_outliers] compares to 0 and
    divides by is the sample one, the square root of the summed squared
    distances to the mean over the number of cells minus one. When it
    equals 0 nothing is flagged; otherwise exactly the cells [x] with
    [abs ((x - mean) / std) > 2] are. *)
Theorem detect_outliers_sample_std (series : list F64.t) :
  2 <= len (dropna series) ->
  std series
  = F64.sqrt
      (F64.div
         (fsum (map (fun x => F64.mul (F64.sub (mean series) x)
                                      (F64.sub (mean series) x))
                    (dropna series)))
         (F64.of_Z (len (dropna series) - 1)))
  /\ (F64.eqb (std series) zero = true -> detect_outliers series = [])
  /\ (F64.eqb (std series) zero = false ->
      detect_outliers series
      = filter
          (fun x =>
             F64.gtb
               (F64.abs (F64.div (F64.sub x (mean series)) (std series)))
               two)
          series).
Proof.
  intro H. unfold detect_outliers. rewrite outliers_ddof_filter.
  fold (std series).
  split; [|split].
  - unfold std, std_ddof, var.
    destruct (Z.leb_spec (len (dropna series)) 1) as [H'|_]; [lia|].
    reflexivity.
  - intros ->. reflexivity.
  - intros ->. reflexivity.
Qed.

Lemma detect_outliers_sample_std_witness :
  2 <= len (dropna (map F64.of_Z [1; 1; 1; 1; 1; 1; 30]))
  /\ detect_outliers (map F64.of_Z [1; 1; 1; 1; 1; 1; 30]) = [F64.of_Z 30]
  /\ detect_outliers (map F64.of_Z [4; 4; 4]) = [].
Proof.
  split; [vm_compute; discriminate|]. split.
  - destruct (detect_outliers_sample_std
                (map F64.of_Z [1; 1; 1; 1; 1; 1; 30])) as (_ & _ & H).
    + vm_compute. discriminate.
    + rewrite H by (vm_compute; reflexivity). vm_compute. reflexivity.
  - destruct (detect_outliers_sample_std (map F64.of_Z [4; 4; 4]))
      as (_ & H & _).
    + vm_compute. discriminate.
    + apply H. vm_compute. reflexivity.
Defined.

(** Against C2 as written: [skewed] has six cells, none missing; its
    population standard deviation is not 0 and puts the z-score of 10 above
    2, so the specification's detection flags 10, while [detect_outliers]
    returns nothing. *)
Lemma detect_outliers_not_population :
  2 <= len (dropna skewed)
  /\ F64.eqb (std_ddof 0 skewed) zero = false
  /\ detect_outliers_population skewed = [F64.of_Z 10]
  /\ detect_outliers skewed = []
  /\ detect_outliers skewed <> detect_outliers_population skewed.
Proof.
  split; [vm_compute; discriminate|].
  split; [vm_compute; reflexivity|].
  split; [vm_compute; reflexivity|].
  split; [vm_compute; reflexivity|].
  vm_compute. discriminate.
Qed.

(** ** The temporal probe *)

Lemma get_col_app (name : string) (a b : dataframe) :
  get_col name (a ++ b)%list
  = match get_col name a with
    | Some c => Some c
    | None => get_col name b
    end.
Proof.
  induction a as [|[n c] a IH]; simpl; [reflexivity|].
  destruct (String.eqb name n); [reflexivity|exact IH].
Qed.

Lemma get_col_absent (name : string) (a : dataframe) :
  ~ In name (columns a) -> get_col name a = None.
Proof.
  induction a as [|[n c] a IH]; simpl; [reflexivity|].
  intro N. destruct (String.eqb_spec name n) as [->|_].
  - exfalso. apply N. now left.
  - apply IH. intro H. apply N. now right.
Qed.

Lemma get_col_present (name : string) (a : dataframe) :
  In name (columns a) -> exists c, get_col name a = Some c /\ In (name, c) a.
Proof.
  induction a as [|[n c] a IH]; simpl; [intros []|].
  intro H. destruct (String.eqb_spec name n) as [->|N].
  - exists c. split; [reflexivity|now left].
  - destruct H as [E|H]; [congruence|].
    destruct (IH H) as (c' & G & I). exists c'. split; [exact G|now right].
Qed.

Lemma set_col_app_absent (name : string) (c : column) (a b : dataframe) :
  ~ In name (columns a) -> set_col name c (a ++ b)%list = (a ++ set_col name c b)%list.
Proof.
  induction a as [|[n c0] a IH]; simpl; [reflexivity|].
  intro N. destruct (String.eqb_spec name n) as [->|_].
  - exfalso. apply N. now left.
  - rewrite IH; [reflexivity|]. intro H. apply N. now right.
Qed.

Lemma nodup_middle (pre post : dataframe) (name : string) (c : column) :
  NoDup (columns (pre ++ (name, c) :: post)%list) -> ~ In name (columns pre).
Proof.
  unfold columns. rewrite map_app. simpl. intros H I.
  apply NoDup_remove_2 in H. apply H, in_or_app. now left.
Qed.

Section ProbeProperties.

Variable parse_dates : list (option string) -> option (list (option Z)).

(** Names whose columns do not coerce are passed over. *)
Lemma probe_skip (pre : dataframe) (cols : list string) (df : dataframe) :
  (forall n, In n (columns pre) ->
             exists c, get_col n df = Some c
                       /\ to_datetime parse_dates c = None) ->
  probe parse_dates (columns pre ++ cols)%list df = probe parse_dates cols df.
Proof.
  induction pre as [|[n c] pre IH]; intro H; [reflexivity|].
  simpl. destruct (H n) as (c' & G & T); [now left|].
  rewrite G, T. apply IH. intros m I. apply H. now right.
Qed.

Lemma probe_none (df : dataframe) :
  Forall (fails parse_dates) df -> detect_date_column parse_dates df = (None, df).
Proof.
  intro H. unfold detect_date_column.
  rewrite <- (app_nil_r (columns df)), probe_skip; [reflexivity|].
  intros n I. destruct (get_col_present n df I) as (c & G & J).
  exists c. split; [exact G|].
  rewrite Forall_forall in H. exact (H _ J).
Qed.

Lemma probe_first (pre post : dataframe) (name : string) (c stamps : column) :
  ~ In name (columns pre) ->
  Forall (fails parse_dates) pre ->
  to_datetime parse_dates c = Some stamps ->
  detect_date_column parse_dates (pre ++ (name, c) :: post)%list
  = (Some name, (pre ++ (name, stamps) :: post)%list).
Proof.
  intros N H T. unfold detect_date_column, columns.
  rewrite map_app. fold (columns pre).
  rewrite probe_skip.
  - simpl. rewrite get_col_app, (get_col_absent _ _ N). simpl.
    rewrite String.eqb_refl, T, (set_col_app_absent _ _ _ _ N). simpl.
    rewrite String.eqb_refl. reflexivity.
  - intros n I. destruct (get_col_present n pre I) as (c' & G & J).
    exists c'. rewrite get_col_app, G. split; [reflexivity|].
    rewrite Forall_forall in H. exact (H _ J).
Qed.

(** Every frame either has no column that coerces or splits at the first
    one that does. *)
Lemma first_coercible (df : dataframe) :
  Forall (fails parse_dates) df
  \/ exists pre name c post stamps,
      df = (pre ++ (name, c) :: post)%list
      /\ Forall (fails parse_dates) pre
      /\ to_datetime parse_dates c = Some stamps.
Proof.
  induction df as [|[n c] df IH]; [left; constructor|].
  destruct (to_datetime parse_dates c) as [stamps|] eqn:T.
  - right. exists [], n, c, df, stamps. repeat split; [constructor|exact T].
  - destruct IH as [H|(pre & name & c' & post & stamps & -> & H & T')].
    + left. constructor; [exact T|exact H].
    + right. exists ((n, c) :: pre), name, c', post, stamps.
      repeat split; [constructor; [exact T|exact H]|exact T'].
Qed.

(** C9: on a frame whose columns have names of their own,
    [detect_date_column] returns the name of the first column, in the
    order of the frame, that [to_datetime] converts, and no name when none
    converts. In the first case the frame it leaves has that column
    replaced by the converted one where it stood, the same column names in
    the same order and every other column as it was; in the second the
    frame is as it was. The rules read the frame and return insights only,
    so nothing else assigns into it. *)
Theorem detect_date_column_contract (df : dataframe) :
  NoDup (columns df) ->
  (Forall (fails parse_dates) df ->
   detect_date_column parse_dates df = (None, df))
  /\ (forall pre name c post stamps,
        df = (pre ++ (name, c) :: post)%list ->
        Forall (fails parse_dates) pre ->
        to_datetime parse_dates c = Some stamps ->
        let df' := (pre ++ (name, stamps) :: post)%list in
        detect_date_column parse_dates df = (Some name, df')
        /\ columns df' = columns df
        /\ get_col name df' = Some stamps
        /\ forall other, other <> name -> get_col other df' = get_col other df)
  /\ (Forall (fails parse_dates) df
      \/ exists pre name c post stamps,
          df = (pre ++ (name, c) :: post)%list
          /\ Forall (fails parse_dates) pre
          /\ to_datetime parse_dates c = Some stamps).
Proof.
  intro D. split; [apply probe_none|]. split; [|apply first_coercible].
  intros pre name c post stamps -> H T df'.
  pose proof (nodup_middle _ _ _ _ D) as N.
  split; [now apply probe_first|].
  split; [|split].
  - unfold df', columns. rewrite !map_app. reflexivity.
  - unfold df'. rewrite get_col_app, (get_col_absent _ _ N). simpl.
    rewrite String.eqb_refl. reflexivity.
  - intros other O. unfold df'. rewrite !get_col_app. simpl.
    destruct (String.eqb_spec other name) as [E|_]; [contradiction|].
    reflexivity.
Qed.

Lemma probe_head (name : string) (c stamps : column) (rest : dataframe) :
  to_datetime parse_dates c = Some stamps ->
  detect_date_column parse_dates ((name, c) :: rest)
  = (Some name, (name, stamps) :: rest).
Proof.
  intro T. unfold detect_date_column.
  cbn [columns map fst probe get_col]. rewrite String.eqb_refl, T.
  cbn [set_col]. rewrite String.eqb_refl. reflexivity.
Qed.

(** C10: a float64 column and an int64 column always convert, so when the
    first column of a frame is one of them the probe returns its name and
    leaves it as a datetime column; [select_dtypes] then passes it over,
    and the loop of the Finance rules runs over the other columns only. A
    frame made of one such column "sales" gets the no-pattern narrative
    from the pipeline whatever its cells are, although the Finance rules
    report the growth of the same column when the probe has not run. *)
Theorem numeric_first_column_lost (name : string) (vals : list F64.t)
    (ints : list Z) (rest : dataframe) :
  to_datetime parse_dates (NumCol (Float64 vals))
  = Some (TimeCol (map to_ns vals))
  /\ to_datetime parse_dates (NumCol (Int64 ints))
     = Some (TimeCol (map int_to_ns ints))
  /\ detect_date_column parse_dates ((name, NumCol (Float64 vals)) :: rest)
     = (Some name, (name, TimeCol (map to_ns vals)) :: rest)
  /\ detect_date_column parse_dates ((name, NumCol (Int64 ints)) :: rest)
     = (Some name, (name, TimeCol (map int_to_ns ints)) :: rest)
  /\ select_number
       (snd (detect_date_column parse_dates
               ((name, NumCol (Float64 vals)) :: rest)))
     = select_number rest
  /\ select_number
       (snd (detect_date_column parse_dates
               ((name, NumCol (Int64 ints)) :: rest)))
     = select_number rest
  /\ finance_insights
       (snd (detect_date_column parse_dates [(name, NumCol (Float64 vals))]))
     = Ok []
  /\ finance_insights
       (snd (detect_date_column parse_dates [(name, NumCol (Int64 ints))]))
     = Ok []
  /\ pipeline parse_dates [("sales", NumCol (Float64 vals))]
     = Ok no_pattern_sentence
  /\ pipeline parse_dates [("sales", NumCol (Int64 ints))]
     = Ok no_pattern_sentence
  /\ finance_insights [("sales", NumCol (Int64 [100; 200]))]
     = Ok ["Sales increased by 100.0% over the period."]
  /\ finance_insights
       [("sales", NumCol (Float64 [F64.of_Z 100; F64.of_Z 200]))]
     = Ok ["Sales increased by 100.0% over the period."].
Proof.
  assert (Pf : forall name' rest',
             detect_date_column parse_dates
               ((name', NumCol (Float64 vals)) :: rest')
             = (Some name', (name', TimeCol (map to_ns vals)) :: rest'))
    by (intros; now apply probe_head).
  assert (Pi : forall name' rest',
             detect_date_column parse_dates
               ((name', NumCol (Int64 ints)) :: rest')
             = (Some name', (name', TimeCol (map int_to_ns ints)) :: rest'))
    by (intros; now apply probe_head).
  split; [reflexivity|]. split; [reflexivity|].
  split; [apply Pf|]. split; [apply Pi|].
  split; [rewrite Pf; reflexivity|]. split; [rewrite Pi; reflexivity|].
  split; [rewrite Pf; reflexivity|]. split; [rewrite Pi; reflexivity|].
  split; [|split; [|split; vm_compute; reflexivity]].
  - unfold pipeline. rewrite Pf.
    change (classify_domain (labels [("sales", TimeCol (map to_ns vals))]))
      with (Ok Finance : result Domain).
    reflexivity.
  - unfold pipeline. rewrite Pi.
    change (classify_domain (labels [("sales", TimeCol (map int_to_ns ints))]))
      with (Ok Finance : result Domain).
    reflexivity.
Qed.

(** C1, as the code runs it: the column labels of [scenario1] classify as
    Finance and the Finance rules applied to the frame as loaded give the
    three sentences of the scenario, which the synthesis wraps in the
    Finance template. The pipeline does not get there: the probe, which
    runs first, converts the "revenue" column to datetimes, and the
    margin-pressure rule then raises TypeError on [growth_rate] of that
    column. The same holds of the frame with float cells. *)
Theorem scenario1_pipeline_raises :
  classify_domain (labels scenario1) = Ok Finance
  /\ finance_insights scenario1
     = Ok ["Revenue declined by 20.0% over the period.";
           "Cost increased by 40.0% over the period.";
           "Costs grew faster than revenue, leading to margin pressure."]
  /\ rewrite_insights
       ["Revenue declined by 20.0% over the period.";
        "Cost increased by 40.0% over the period.";
        "Costs grew faster than revenue, leading to margin pressure."]
       Finance
     = "Financial performance analysis shows that Revenue declined by 20.0% over the period. Cost increased by 40.0% over the period. Costs grew faster than revenue, leading to margin pressure. Overall results indicate key areas impacting profitability and cost structure."
  /\ detect_date_column parse_dates scenario1
     = (Some "revenue",
        [("revenue", TimeCol [Some 100; Some 80]);
         ("cost", NumCol (Int64 [50; 70]))])
  /\ growth_rate (TimeCol [Some 100; Some 80]) = Raise TypeError
  /\ pipeline parse_dates scenario1 = Raise TypeError
  /\ finance_insights scenario1_float64
     = Ok ["Revenue declined by 20.0% over the period.";
           "Cost increased by 40.0% over the period.";
           "Costs grew faster than revenue, leading to margin pressure."]
  /\ detect_date_column parse_dates scenario1_float64
     = (Some "revenue",
        [("revenue", TimeCol [Some 100; Some 80]);
         ("cost", NumCol (Float64 [F64.of_Z 50; F64.of_Z 70]))])
  /\ pipeline parse_dates scenario1_float64 = Raise TypeError.
Proof.
  repeat split; vm_compute; reflexivity.
Qed.

End ProbeProperties.

Lemma detect_date_column_contract_witness :
  detect_date_column (fun _ => None)
    [("notes", TextCol [Some "a"; None]);
     ("units", NumCol (Int64 [3; 4]));
     ("region", TextCol [Some "n"; Some "s"])]
  = (Some "units",
     [("notes", TextCol [Some "a"; None]);
      ("units", TimeCol [Some 3; Some 4]);
      ("region", TextCol [Some "n"; Some "s"])])
  /\ detect_date_column (fun _ => None) [("notes", TextCol [Some "a"; None])]
     = (None, [("notes", TextCol [Some "a"; None])]).
Proof.
  split.
  - apply (proj1 (proj2 (detect_date_column_contract (fun _ => None)
             [("notes", TextCol [Some "a"; None]);
              ("units", NumCol (Int64 [3; 4]));
              ("region", TextCol [Some "n"; Some "s"])]
             ltac:(repeat constructor; simpl; intuition discriminate)))
           [("notes", TextCol [Some "a"; None])] "units"
           (NumCol (Int64 [3; 4]))
           [("region", TextCol [Some "n"; Some "s"])]
           (TimeCol [Some 3; Some 4])).
    + reflexivity.
    + repeat constructor.
    + reflexivity.
  - apply (proj1 (detect_date_column_contract (fun _ => None)
             [("notes", TextCol [Some "a"; None])]
             ltac:(repeat constructor; simpl; intuition discriminate))).
    repeat constructor.
Defined.

(** * Further properties *)

(** ** Loading *)

Lemma ends_with_empty (suffix : string) :
  suffix <> "" -> PyStr.ends_with suffix "" = false.
Proof. destruct suffix; [congruence|reflexivity]. Qed.

(** A string has the last character of any suffix of it that is not
    empty. *)
Lemma ends_with_last_char (suffix s : string) :
  suffix <> "" ->
  PyStr.ends_with suffix s = true -> last_char s = last_char suffix.
Proof.
  intro N. induction s as [|c s IH].
  - rewrite (ends_with_empty _ N). discriminate.
  - cbn [PyStr.ends_with]. intro H. apply orb_true_iff in H.
    destruct H as [H|H].
    + apply String.eqb_eq in H. now rewrite H.
    + destruct s as [|d s]; [now rewrite (ends_with_empty _ N) in H|].
      change (last_char (String c (String d s))) with (last_char (String d s)).
      now apply IH.
Qed.

Lemma ends_with_length (suffix s : string) :
  PyStr.ends_with suffix s = true ->
  (String.length suffix <= String.length s)%nat.
Proof.
  induction s as [|c s IH]; cbn [PyStr.ends_with]; intro H;
    apply orb_true_iff in H; destruct H as [H|H]; try discriminate H.
  - apply String.eqb_eq in H. rewrite H. apply Nat.le_refl.
  - apply String.eqb_eq in H. rewrite H. apply Nat.le_refl.
  - apply IH in H. simpl. lia.
Qed.

Section LoadingProperties.

Variable File : Type.
Variable file_name : File -> string.
Variable read_csv read_excel read_json : File -> dataframe.

Let load := load_data File file_name read_csv read_excel read_json.

(** X1: the three suffix tests of [load_data] exclude one another, so a
    name ending in ".csv", ".xlsx" or ".json" is read by the reader of that
    suffix whatever the order of the branches, and [None] is returned
    exactly when the name ends in none of the three. *)
Theorem load_data_dispatch (file : File) :
  (PyStr.ends_with ".csv" (file_name file) = true ->
   load file = Some (read_csv file))
  /\ (PyStr.ends_with ".xlsx" (file_name file) = true ->
      load file = Some (read_excel file))
  /\ (PyStr.ends_with ".json" (file_name file) = true ->
      load file = Some (read_json file))
  /\ (load file = None
      <-> PyStr.ends_with ".csv" (file_name file) = false
          /\ PyStr.ends_with ".xlsx" (file_name file) = false
          /\ PyStr.ends_with ".json" (file_name file) = false).
Proof.
  unfold load, load_data.
  destruct (PyStr.ends_with ".csv" (file_name file)) eqn:C;
    destruct (PyStr.ends_with ".xlsx" (file_name file)) eqn:X;
    destruct (PyStr.ends_with ".json" (file_name file)) eqn:J;
    try apply ends_with_last_char in C; try apply ends_with_last_char in X;
    try apply ends_with_last_char in J; try discriminate;
    try (rewrite C in X; discriminate X);
    try (rewrite C in J; discriminate J);
    try (rewrite X in J; discriminate J);
    repeat split; try reflexivity; try discriminate;
    try (intros (? & ? & ?); discriminate).
Qed.

(** X2: [load_data] compares the suffix as it is written: a file is read
    only when its name has at least four characters and ends in a
    lower-case "v", "x" or "n"; a name ending in upper case, ".CSV" for
    one, gives [None]. *)
Theorem load_data_case_sensitive (file : File) :
  (load file <> None ->
   (4 <= String.length (file_name file))%nat
   /\ (last_char (file_name file) = Some "v"%char
       \/ last_char (file_name file) = Some "x"%char
       \/ last_char (file_name file) = Some "n"%char))
  /\ (forall base, file_name file = base ++ ".CSV" -> load file = None)
  /\ (forall base, file_name file = base ++ ".XLSX" -> load file = None)
  /\ (forall base, file_name file = base ++ ".JSON" -> load file = None).
Proof.
  assert (Some_ : load file <> None ->
    (4 <= String.length (file_name file))%nat
    /\ (last_char (file_name file) = Some "v"%char
        \/ last_char (file_name file) = Some "x"%char
        \/ last_char (file_name file) = Some "n"%char)).
  { unfold load, load_data.
    destruct (PyStr.ends_with ".csv" (file_name file)) eqn:C;
      [|destruct (PyStr.ends_with ".xlsx" (file_name file)) eqn:X;
        [|destruct (PyStr.ends_with ".json" (file_name file)) eqn:J]];
      intro Loaded.
    - split; [apply (ends_with_length _ _ C)|].
      left. now apply ends_with_last_char in C.
    - split; [apply ends_with_length in X; simpl in X; lia|].
      right. left. now apply ends_with_last_char in X.
    - split; [apply ends_with_length in J; simpl in J; lia|].
      right. right. now apply ends_with_last_char in J.
    - congruence. }
  assert (Upper : forall base ext c,
             file_name file = base ++ ext ->
             last_char ext = Some c ->
             c <> "v"%char -> c <> "x"%char -> c <> "n"%char ->
             PyStr.ends_with ext ext = true ->
             load file = None).
  { intros base ext c E L Nv Nx Nn R.
    destruct (load file) eqn:LF; [|reflexivity]. exfalso.
    destruct Some_ as (_ & H); [congruence|].
    assert (L' : last_char (file_name file) = Some c).
    { rewrite E, <- L. apply ends_with_last_char.
      - intros ->. discriminate L.
      - now apply ends_with_app. }
    rewrite L' in H. destruct H as [H|[H|H]]; congruence. }
  split; [exact Some_|].
  split; [|split]; intros base E;
    (eapply Upper; [exact E|reflexivity|discriminate..|reflexivity]).
Qed.

End LoadingProperties.

Lemma load_data_dispatch_witness :
  load_data string (fun name => name)
    (fun _ => [("csv", NumCol (Float64 []))]) (fun _ => [("xlsx", NumCol (Float64 []))])
    (fun _ => [("json", NumCol (Float64 []))]) "q3.report.xlsx"
  = Some [("xlsx", NumCol (Float64 []))].
Proof.
  apply (proj1 (proj2 (load_data_dispatch string (fun name => name)
                         (fun _ => [("csv", NumCol (Float64 []))])
                         (fun _ => [("xlsx", NumCol (Float64 []))])
                         (fun _ => [("json", NumCol (Float64 []))]) "q3.report.xlsx"))).
  reflexivity.
Defined.

Lemma load_data_case_sensitive_witness :
  load_data string (fun name => name)
    (fun _ => [("csv", NumCol (Float64 []))]) (fun _ => [("xlsx", NumCol (Float64 []))])
    (fun _ => [("json", NumCol (Float64 []))]) "SALES.CSV"
  = None.
Proof.
  apply (proj1 (proj2 (load_data_case_sensitive string (fun name => name)
                         (fun _ => [("csv", NumCol (Float64 []))])
                         (fun _ => [("xlsx", NumCol (Float64 []))])
                         (fun _ => [("json", NumCol (Float64 []))]) "SALES.CSV"))
           "SALES").
  reflexivity.
Defined.

(** ** Domain classification, further *)

Lemma to_lower_idempotent (c : ascii) :
  PyStr.to_lower (PyStr.to_lower c) = PyStr.to_lower c.
Proof. destruct c as [[] [] [] [] [] [] [] []]; reflexivity. Qed.

Lemma lower_idempotent (s : string) : PyStr.lower (PyStr.lower s) = PyStr.lower s.
Proof.
  induction s as [|c s IH]; [reflexivity|].
  simpl. now rewrite to_lower_idempotent, IH.
Qed.

Lemma hits_lower (keywords : list string) (cols cols' : list string) :
  map PyStr.lower cols = map PyStr.lower cols' ->
  hits keywords (map LStr cols) = hits keywords (map LStr cols').
Proof.
  revert cols'. induction cols as [|c cols IH]; intros [|c' cols'];
    try discriminate; [reflexivity|].
  simpl. intros [= E1 E2]. now rewrite (IH _ E2), E1.
Qed.

Lemma score_lower (keywords : list string) (cols cols' : list string) :
  map PyStr.lower cols = map PyStr.lower cols' ->
  score keywords (map LStr cols) = score keywords (map LStr cols').
Proof.
  intro E. rewrite !score_spec, !raises_strings.
  now rewrite (hits_lower _ _ _ E).
Qed.

(** X3: [classify_domain] reads the column names through [lower()] only:
    two lists of names that agree once lowered get the same two scores and
    the same Domain, and lowering the names changes nothing. *)
Theorem classify_domain_case_insensitive (cols cols' : list string) :
  map PyStr.lower cols = map PyStr.lower cols' ->
  finance_score (map LStr cols) = finance_score (map LStr cols')
  /\ marketing_score (map LStr cols) = marketing_score (map LStr cols')
  /\ classify_domain (map LStr cols) = classify_domain (map LStr cols')
  /\ classify_domain (map LStr (map PyStr.lower cols))
     = classify_domain (map LStr cols).
Proof.
  intro E.
  assert (L : map PyStr.lower (map PyStr.lower cols) = map PyStr.lower cols).
  { rewrite map_map. apply map_ext. apply lower_idempotent. }
  unfold classify_domain, finance_score, marketing_score.
  rewrite (score_lower finance_keywords _ _ E),
          (score_lower marketing_keywords _ _ E).
  repeat split.
  rewrite (score_lower finance_keywords _ _ L),
          (score_lower marketing_keywords _ _ L).
  rewrite (score_lower finance_keywords _ _ E),
          (score_lower marketing_keywords _ _ E).
  reflexivity.
Qed.

Lemma classify_domain_case_insensitive_witness :
  classify_domain [LStr "Web_Traffic"; LStr "CHURN"; LStr "Cost"]
  = classify_domain [LStr "web_traffic"; LStr "Churn"; LStr "COST"].
Proof.
  apply (classify_domain_case_insensitive
           ["Web_Traffic"; "CHURN"; "Cost"] ["web_traffic"; "Churn"; "COST"]).
  reflexivity.
Defined.

Lemma hits_bounds (keywords : list string) (cols : list label) :
  0 <= hits keywords cols <= len cols.
Proof.
  induction cols as [|c cols IH]; [unfold hits, len; simpl; lia|].
  change (hits keywords (c :: cols)) with (hit keywords c + hits keywords cols).
  unfold len in *. cbn [List.length].
  destruct c as [s|n]; cbn [hit]; [destruct (has_keyword _ _)|]; lia.
Qed.

Lemma hits_positive (keywords : list string) (cols : list label) :
  0 < hits keywords cols ->
  exists name,
    In (LStr name) cols /\ has_keyword keywords (PyStr.lower name) = true.
Proof.
  induction cols as [|c cols IH]; [unfold hits; simpl; lia|].
  change (hits keywords (c :: cols)) with (hit keywords c + hits keywords cols).
  destruct c as [s|n]; cbn [hit].
  - destruct (has_keyword keywords (PyStr.lower s)) eqn:M.
    + intros _. exists s. split; [now left|exact M].
    + intro H. destruct IH as (name & I & Mc); [lia|].
      exists name. split; [now right|exact Mc].
  - intro H. destruct IH as (name & I & Mc); [lia|].
    exists name. split; [now right|exact Mc].
Qed.

Lemma score_ok (keywords : list string) (cols : list label) (total : Z) :
  score keywords cols = Ok total -> total = hits keywords cols.
Proof.
  rewrite score_spec. destruct (existsb _ cols); [discriminate|].
  now intros [= <-].
Qed.

(** X4: a score that is returned lies between 0 and the number of columns,
    a column counting once however many keywords its name holds; Marketing
    is returned only when some column name holds a Marketing keyword; and
    on labels that are strings both scores are returned, within these
    bounds. *)
Theorem classify_domain_scores (cols : list label) :
  (forall finance,
     finance_score cols = Ok finance -> 0 <= finance <= len cols)
  /\ (forall marketing,
        marketing_score cols = Ok marketing -> 0 <= marketing <= len cols)
  /\ (classify_domain cols = Ok Marketing ->
      exists name k,
        In (LStr name) cols /\ In k marketing_keywords
        /\ PyStr.contains k (PyStr.lower name) = true)
  /\ (forall names : list string,
        exists finance marketing,
          finance_score (map LStr names) = Ok finance
          /\ marketing_score (map LStr names) = Ok marketing
          /\ 0 <= finance <= len names
          /\ 0 <= marketing <= len names).
Proof.
  split; [|split; [|split]]; cycle 3.
  - intro names.
    exists (hits finance_keywords (map LStr names)),
           (hits marketing_keywords (map LStr names)).
    unfold finance_score, marketing_score.
    rewrite !score_spec, !raises_strings.
    pose proof (hits_bounds finance_keywords (map LStr names)) as F.
    pose proof (hits_bounds marketing_keywords (map LStr names)) as M.
    unfold len in *. rewrite length_map in F, M. repeat split; lia.
  - intros f F. apply score_ok in F. subst f. apply hits_bounds.
  - intros m M. apply score_ok in M. subst m. apply hits_bounds.
  - unfold classify_domain.
    destruct (finance_score cols) as [f|] eqn:F; [|discriminate].
    destruct (marketing_score cols) as [m|] eqn:M; [|discriminate].
    cbn [bind]. apply score_ok in F. apply score_ok in M.
    destruct (Z.geb_spec f m) as [_|H]; [discriminate|]. intros _.
    pose proof (hits_bounds finance_keywords cols) as B.
    destruct (hits_positive marketing_keywords cols) as (name & I & C);
      [lia|].
    unfold has_keyword in C. apply existsb_exists in C.
    destruct C as (k & Ik & C). now exists name, k.
Qed.

Lemma classify_domain_scores_witness :
  exists name k,
    In (LStr name) [LStr "id"; LStr "Churn_Rate"] /\ In k marketing_keywords
    /\ PyStr.contains k (PyStr.lower name) = true.
Proof.
  apply (proj1 (proj2 (proj2 (classify_domain_scores
                                [LStr "id"; LStr "Churn_Rate"])))).
  vm_compute. reflexivity.
Defined.

(** ** Narrative synthesis, further *)

Lemma prefix_app (k b : string) : String.prefix k (k ++ b) = true.
Proof.
  induction k as [|c k IH]; [destruct b; reflexivity|].
  simpl. destruct (ascii_dec c c); [exact IH|congruence].
Qed.

Lemma prefix_app_r (k s b : string) :
  String.prefix k s = true -> String.prefix k (s ++ b) = true.
Proof.
  revert s. induction k as [|c k IH]; intros s;
    [intros _; destruct (s ++ b); reflexivity|].
  destruct s as [|d s]; simpl; [discriminate|].
  destruct (ascii_dec c d); [apply IH|discriminate].
Qed.

Lemma contains_app_r (k s b : string) :
  PyStr.contains k s = true -> PyStr.contains k (s ++ b) = true.
Proof.
  induction s as [|c s IH]; cbn [PyStr.contains]; intro H;
    apply orb_true_iff in H; destruct H as [H|H]; try discriminate H.
  - destruct k; [|discriminate H].
    destruct b; reflexivity.
  - pose proof (prefix_app_r _ _ b H) as P.
    change (String c s ++ b) with (String c (s ++ b)) in P |- *.
    cbn [PyStr.contains]. now rewrite P.
  - change (String c s ++ b) with (String c (s ++ b)).
    cbn [PyStr.contains]. rewrite (IH H). apply orb_true_r.
Qed.

Lemma contains_app_l (k a s : string) :
  PyStr.contains k s = true -> PyStr.contains k (a ++ s) = true.
Proof.
  intro H. induction a as [|c a IH]; [exact H|].
  change (String c a ++ s) with (String c (a ++ s)).
  cbn [PyStr.contains]. rewrite IH. apply orb_true_r.
Qed.

Lemma contains_head (k b : string) : PyStr.contains k (k ++ b) = true.
Proof.
  destruct (k ++ b) eqn:E; cbn [PyStr.contains]; rewrite <- E, prefix_app;
    reflexivity.
Qed.

Lemma contains_self (k : string) : PyStr.contains k k = true.
Proof.
  assert (P : String.prefix k k = true).
  { induction k as [|c k IH]; [reflexivity|].
    simpl. destruct (ascii_dec c c); [exact IH|congruence]. }
  destruct k; cbn [PyStr.contains]; rewrite P; reflexivity.
Qed.

Lemma contains_join (i : string) (l : list string) :
  In i l -> PyStr.contains i (PyStr.join " " l) = true.
Proof.
  unfold PyStr.join. induction l as [|x l IH]; [intros []|].
  intro H. destruct l as [|y l].
  - destruct H as [->|[]]. apply contains_self.
  - change (concat " " (x :: y :: l)) with (x ++ " " ++ concat " " (y :: l)).
    destruct H as [->|H].
    + apply contains_head.
    + apply contains_app_l, contains_app_l, IH, H.
Qed.

(** X5: the narrative is the no-pattern sentence exactly when there is no
    insight: with one insight or more, even empty ones, the template of
    the domain is used. *)
Theorem rewrite_insights_fallback_iff (insights : list string)
    (domain : Domain) :
  rewrite_insights insights domain = no_pattern_sentence <-> insights = [].
Proof.
  split; [|intros ->; reflexivity].
  destruct insights as [|i rest]; [reflexivity|].
  destruct domain; simpl; discriminate.
Qed.

(** X6: every insight handed to [rewrite_insights] occurs in the narrative
    it returns, whatever the domain: none is dropped or cut. *)
Theorem rewrite_insights_keeps (insights : list string) (domain : Domain)
    (i : string) :
  In i insights ->
  PyStr.contains i (rewrite_insights insights domain) = true.
Proof.
  intro H. pose proof (contains_join i insights H) as C.
  destruct insights as [|x rest]; [destruct H|].
  destruct domain; cbn [rewrite_insights];
    apply contains_app_l, contains_app_r, C.
Qed.

Lemma rewrite_insights_keeps_witness :
  PyStr.contains "Cost increased by 40.0% over the period."
    (rewrite_insights
       ["Revenue declined by 20.0% over the period.";
        "Cost increased by 40.0% over the period."] Finance)
  = true.
Proof.
  apply (rewrite_insights_keeps
           ["Revenue declined by 20.0% over the period.";
            "Cost increased by 40.0% over the period."] Finance).
  right. left. reflexivity.
Defined.

(** ** Growth rate, further *)

Lemma sub_self (s : bool) (m : positive) (e : Z) :
  F64.sub (S754_finite s m e) (S754_finite s m e) = S754_zero false.
Proof.
  unfold F64.sub, SFsub. cbv zeta. rewrite Z.min_id.
  unfold shl_align. rewrite Z.sub_diag. cbn [fst].
  reflexivity.
Qed.

Lemma hundred_positive : exists m e, hundred = S754_finite false m e.
Proof. do 2 eexists. vm_compute. reflexivity. Qed.

Lemma sub_nan_l (x : F64.t) : F64.sub F64.nan x = F64.nan.
Proof. reflexivity. Qed.

Lemma sub_nan_r (x : F64.t) : F64.sub x F64.nan = F64.nan.
Proof. destruct x; reflexivity. Qed.

Lemma div_nan_l (x : F64.t) : F64.div F64.nan x = F64.nan.
Proof. reflexivity. Qed.

Lemma div_nan_r (x : F64.t) : F64.div x F64.nan = F64.nan.
Proof. destruct x; reflexivity. Qed.

Lemma mul_nan_l (x : F64.t) : F64.mul F64.nan x = F64.nan.
Proof. reflexivity. Qed.

(** The growth between two equal ends is +0.0 when they are finite and not
    0, and NaN otherwise. *)
Lemma growth_equal_ends (x : F64.t) (rest : list F64.t) :
  last rest x = x ->
  growth_rate (NumCol (Float64 (x :: rest)))
  = Ok (match x with
        | S754_finite _ _ _ => S754_zero false
        | _ => F64.nan
        end).
Proof.
  intro L. rewrite growth_rate_num, L.
  destruct x as [s|s| |s m e].
  - destruct s; reflexivity.
  - destruct s; reflexivity.
  - reflexivity.
  - replace (F64.eqb (S754_finite s m e) zero) with false
      by (destruct s; reflexivity).
    rewrite sub_self. destruct hundred_positive as (mh & eh & ->).
    reflexivity.
Qed.

(** X7: a float64 column whose first and last cells that are not missing
    hold the same value has a growth rate of +0.0, or NaN when that value
    is 0 or infinite, and gets no growth sentence, whatever lies between
    the two cells. *)
Theorem growth_rule_equal_ends (vals : list F64.t) (x : F64.t) :
  first_valid vals = Some x ->
  last_valid vals = Some x ->
  exists growth,
    growth_rate (NumCol (Float64 (dropna vals))) = Ok growth
    /\ (growth = F64.nan \/ growth = S754_zero false)
    /\ (forall col insights, growth_rule col growth insights = insights)
    /\ growth = match x with
                | S754_finite _ _ _ => S754_zero false
                | _ => F64.nan
                end.
Proof.
  intros Hf Hl.
  destruct (dropna_ends vals x x Hf Hl) as (rest & E & L).
  rewrite E, (growth_equal_ends x rest L).
  eexists. split; [reflexivity|].
  destruct x as [s|s| |s m e]; (split; [auto|]); (split; [|reflexivity]);
    intros col insights; vm_compute; reflexivity.
Qed.

Lemma growth_rule_equal_ends_witness :
  exists growth,
    growth_rate
      (NumCol
         (Float64 (dropna [F64.of_Z 40; F64.of_Z 900; F64.nan; F64.of_Z 40])))
    = Ok growth
    /\ growth_rule "sales" growth [] = [].
Proof.
  destruct (growth_rule_equal_ends
              [F64.of_Z 40; F64.of_Z 900; F64.nan; F64.of_Z 40]
              (F64.of_Z 40) eq_refl eq_refl) as (growth & G & _ & R & _).
  exists growth. split; [exact G|apply R].
Defined.

Lemma rewrite_insights_fallback_iff_witness :
  ["Customer churn increased, particularly among sensitive segments."] <> []
  /\ rewrite_insights
       ["Customer churn increased, particularly among sensitive segments."]
       Marketing
     <> no_pattern_sentence.
Proof.
  split; [discriminate|].
  intro H.
  apply (proj1 (rewrite_insights_fallback_iff
                  ["Customer churn increased, particularly among sensitive segments."]
                  Marketing)) in H.
  discriminate H.
Defined.

(** ** Outlier detection, further *)

Lemma filter_none {A : Type} (p : A -> bool) (l : list A) :
  (forall x, In x l -> p x = false) -> filter p l = [].
Proof.
  induction l as [|a l IH]; intro H; [reflexivity|].
  simpl. rewrite (H a) by now left.
  apply IH. intros x I. apply H. now right.
Qed.

Lemma filter_len {A : Type} (p : A -> bool) (l : list A) :
  len (filter p l) <= len l.
Proof.
  unfold len. induction l as [|a l IH]; simpl; [lia|].
  destruct (p a); simpl; lia.
Qed.

(** X9: [detect_outliers] returns cells of the series it is given, in
    their order and no more than there are; a cell it returns is not
    missing, and it returns one only when the standard deviation is not
    0. *)
Theorem detect_outliers_cells (series : list F64.t) :
  (exists flagged : F64.t -> bool,
     detect_outliers series = filter flagged series)
  /\ len (detect_outliers series) <= len series
  /\ (forall x, In x (detect_outliers series) ->
                In x series
                /\ F64.isnan x = false
                /\ F64.eqb (std series) zero = false).
Proof.
  unfold detect_outliers. rewrite outliers_ddof_filter. fold (std series).
  destruct (F64.eqb (std series) zero).
  - split; [exists (fun _ => false); symmetry; now apply filter_none|].
    split; [unfold len; simpl; lia|]. intros x [].
  - split; [eexists; reflexivity|].
    split; [apply filter_len|].
    intros x I. apply filter_In in I. destruct I as (I & Z).
    repeat split; [exact I|].
    destruct x as [s|s| |s m e]; try reflexivity.
    rewrite sub_nan_l, div_nan_l in Z. discriminate Z.
Qed.

Lemma detect_outliers_cells_witness :
  In (F64.of_Z 30) (map F64.of_Z [1; 1; 1; 1; 1; 1; 30])
  /\ F64.eqb (std (map F64.of_Z [1; 1; 1; 1; 1; 1; 30])) zero = false.
Proof.
  destruct (proj2 (proj2 (detect_outliers_cells
                            (map F64.of_Z [1; 1; 1; 1; 1; 1; 30])))
              (F64.of_Z 30)) as (I & _ & Z).
  - vm_compute. left. reflexivity.
  - split; [exact I|exact Z].
Defined.

(** X10: on a series with fewer than two cells that are not missing the
    standard deviation is NaN, which is not 0 and makes every z-score NaN:
    [detect_outliers] returns nothing. *)
Theorem detect_outliers_short (series : list F64.t) :
  len (dropna series) < 2 ->
  std series = F64.nan /\ detect_outliers series = [].
Proof.
  intro H.
  assert (S : std series = F64.nan).
  { unfold std, std_ddof, var.
    destruct (Z.leb_spec (len (dropna series)) 1) as [_|H']; [reflexivity|lia]. }
  split; [exact S|].
  unfold detect_outliers. rewrite outliers_ddof_filter. fold (std series).
  rewrite S. change (F64.eqb F64.nan zero) with false. cbv iota.
  apply filter_none. intros x _. now rewrite div_nan_r.
Qed.

Lemma detect_outliers_short_witness :
  detect_outliers [F64.nan; F64.of_Z 1000000; F64.nan] = [].
Proof.
  apply (detect_outliers_short [F64.nan; F64.of_Z 1000000; F64.nan]).
  vm_compute. reflexivity.
Defined.

(** ** The Finance rules, further *)

Lemma growth_rule_app (col : string) (g : F64.t) (insights : list string) :
  growth_rule col g insights = (insights ++ growth_rule col g [])%list.
Proof.
  unfold growth_rule, append.
  destruct (negb (F64.isnan g)); [|now rewrite app_nil_r].
  destruct (F64.gtb g five); [reflexivity|].
  destruct (F64.ltb g minus_five); [reflexivity|now rewrite app_nil_r].
Qed.

Lemma volatility_rule_app (col : string) (series : numeric)
    (insights : list string) :
  volatility_rule col series insights
  = (insights ++ volatility_rule col series [])%list.
Proof.
  unfold volatility_rule, append.
  destruct (0 <? len (detect_outliers (to_float64 series)));
    [reflexivity|now rewrite app_nil_r].
Qed.

Lemma column_insights_short (col : string) (vals : numeric) :
  num_len (num_dropna vals) < 2 -> column_insights col vals = [].
Proof.
  intro H. unfold column_insights.
  now rewrite (column_step_short col vals [] H).
Qed.

Lemma column_insights_long (col : string) (vals : numeric) :
  2 <= num_len (num_dropna vals) ->
  exists growth,
    growth_rate (NumCol (num_dropna vals)) = Ok growth
    /\ column_insights col vals
       = (growth_rule col growth []
          ++ volatility_rule col (num_dropna vals) [])%list.
Proof.
  intro H. destruct (column_step_long col vals [] H) as (g & G & S).
  exists g. split; [exact G|].
  unfold column_insights. rewrite S. apply volatility_rule_app.
Qed.

Lemma column_step_insights (col : string) (vals : numeric)
    (insights : list string) :
  column_step col vals insights
  = Ok (insights ++ column_insights col vals)%list.
Proof.
  destruct (Z.lt_ge_cases (num_len (num_dropna vals)) 2) as [H|H].
  - rewrite (column_step_short _ _ _ H), (column_insights_short _ _ H).
    now rewrite app_nil_r.
  - destruct (column_step_long col vals insights H) as (g & G & S).
    destruct (column_insights_long col vals H) as (g' & G' & C).
    rewrite G in G'. injection G' as <-.
    rewrite S, C, volatility_rule_app, (growth_rule_app _ _ insights).
    now rewrite app_assoc.
Qed.

Lemma column_loop_insights (cols : list (string * numeric))
    (insights : list string) :
  column_loop cols insights
  = Ok (insights
        ++ flat_map (fun cv => column_insights (fst cv) (snd cv)) cols)%list.
Proof.
  revert insights. induction cols as [|[col vals] cols IH]; intro insights.
  - simpl. now rewrite app_nil_r.
  - cbn [column_loop]. rewrite column_step_insights. cbn [bind].
    rewrite IH. cbn [flat_map fst snd]. now rewrite app_assoc.
Qed.

(** X11: the insights of the Finance rules come column by column, in the
    order of the numeric columns of the frame: what the loop gathers is
    what was there before followed by the insights of each column in turn,
    and without a "revenue" or without a "cost" column that is all
    [finance_insights] returns. *)
Theorem finance_insights_in_column_order (df : dataframe) :
  (forall cols insights,
     column_loop cols insights
     = Ok (insights
           ++ flat_map (fun cv => column_insights (fst cv) (snd cv)) cols)%list)
  /\ ((has_col "revenue" df && has_col "cost" df)%bool = false ->
      finance_insights df
      = Ok (flat_map (fun cv => column_insights (fst cv) (snd cv))
              (select_number df))).
Proof.
  split; [apply column_loop_insights|].
  intro B. unfold finance_insights.
  destruct (len (select_number df) =? 0) eqn:Z.
  - apply len_zero in Z. now rewrite Z.
  - rewrite column_loop_insights. cbn [bind app].
    unfold margin_rule. now rewrite B.
Qed.

Lemma finance_insights_in_column_order_witness :
  finance_insights
    [("units", NumCol (Int64 [10; 20]));
     ("region", TextCol [Some "n"; Some "s"]);
     ("cost", NumCol (Float64 [F64.of_Z 50; F64.of_Z 70]))]
  = Ok ["Units increased by 100.0% over the period.";
        "Cost increased by 40.0% over the period."].
Proof.
  rewrite (proj2 (finance_insights_in_column_order
                    [("units", NumCol (Int64 [10; 20]));
                     ("region", TextCol [Some "n"; Some "s"]);
                     ("cost", NumCol (Float64 [F64.of_Z 50; F64.of_Z 70]))])).
  - vm_compute. reflexivity.
  - reflexivity.
Defined.

(** Two suffixes of one string that have the same length are equal. *)
Lemma ends_with_same_length (s1 s2 x : string) :
  PyStr.ends_with s1 x = true ->
  PyStr.ends_with s2 x = true ->
  String.length s1 = String.length s2 ->
  s1 = s2.
Proof.
  induction x as [|c x IH]; cbn [PyStr.ends_with]; intros H1 H2 L;
    apply orb_true_iff in H1; apply orb_true_iff in H2;
    destruct H1 as [H1|H1], H2 as [H2|H2]; try discriminate;
    try (apply String.eqb_eq in H1); try (apply String.eqb_eq in H2);
    try congruence.
  - apply ends_with_length in H2. subst s1. simpl in L. lia.
  - apply ends_with_length in H1. subst s2. simpl in L. lia.
  - now apply IH.
Qed.

Lemma growth_rule_not_volatility (col col' : string) (g : F64.t) :
  ~ In (volatility_sentence col') (growth_rule col g []).
Proof.
  assert (V : PyStr.ends_with "tility." (volatility_sentence col') = true)
    by (unfold volatility_sentence; apply ends_with_app; reflexivity).
  unfold growth_rule, append.
  destruct (negb (F64.isnan g)); [|intros []].
  destruct (F64.gtb g five); [|destruct (F64.ltb g minus_five)];
    [intros [E|[]]; rewrite <- E in V
    |intros [E|[]]; rewrite <- E in V
    |intros []].
  - assert (P : PyStr.ends_with "period." (increased_sentence col g) = true)
      by (unfold increased_sentence; do 3 apply ends_with_app; reflexivity).
    pose proof (ends_with_same_length _ _ _ V P eq_refl). discriminate.
  - assert (P : PyStr.ends_with "period." (declined_sentence col g) = true)
      by (unfold declined_sentence; do 3 apply ends_with_app; reflexivity).
    pose proof (ends_with_same_length _ _ _ V P eq_refl). discriminate.
Qed.

(** X12: for one column the loop adds at most two sentences, the growth
    sentence before the volatility sentence; the volatility sentence of
    the column is added exactly when the column has two or more cells that
    are not missing and [detect_outliers] returns some of them, whether or
    not a growth sentence was added. *)
Theorem column_insights_shape (col : string) (vals : numeric) :
  (List.length (column_insights col vals) <= 2)%nat
  /\ (exists growth_part volatility_part,
        column_insights col vals = (growth_part ++ volatility_part)%list
        /\ (List.length growth_part <= 1)%nat
        /\ ~ In (volatility_sentence col) growth_part
        /\ (volatility_part = [] \/ volatility_part = [volatility_sentence col]))
  /\ (In (volatility_sentence col) (column_insights col vals)
      <-> 2 <= num_len (num_dropna vals)
          /\ detect_outliers (to_float64 (num_dropna vals)) <> []).
Proof.
  destruct (Z.lt_ge_cases (num_len (num_dropna vals)) 2) as [H|H].
  - rewrite (column_insights_short _ _ H).
    split; [simpl; lia|]. split.
    + exists [], []. repeat split; [simpl; lia|intros []|now left].
    + split; [intros []|intros (H' & _); lia].
  - destruct (column_insights_long col vals H) as (g & G & C). rewrite C.
    assert (Lg : (List.length (growth_rule col g []) <= 1)%nat).
    { unfold growth_rule, append. destruct (negb (F64.isnan g)); [|simpl; lia].
      destruct (F64.gtb g five); [simpl; lia|].
      destruct (F64.ltb g minus_five); simpl; lia. }
    pose proof (growth_rule_not_volatility col col g) as Ng.
    set (series := to_float64 (num_dropna vals)).
    assert (V : volatility_rule col (num_dropna vals) []
                = if 0 <? len (detect_outliers series)
                  then [volatility_sentence col] else []) by reflexivity.
    assert (D : (0 <? len (detect_outliers series)) = true
                <-> detect_outliers series <> []).
    { destruct (detect_outliers series); unfold len; simpl.
      - split; [discriminate|congruence].
      - split; [discriminate|]. intros _. apply Z.ltb_lt. lia. }
    rewrite V.
    destruct (0 <? len (detect_outliers series)) eqn:O.
    + split; [rewrite length_app; simpl; lia|]. split.
      * eexists _, _. split; [reflexivity|]. repeat split;
          [exact Lg|exact Ng|now right].
      * split; [intros _; split; [exact H|now apply D]|].
        intros _. apply in_or_app. right. now left.
    + split; [rewrite length_app; simpl; lia|]. split.
      * eexists _, _. split; [reflexivity|]. repeat split;
          [exact Lg|exact Ng|now left].
      * rewrite app_nil_r. split; [intro I; now apply Ng in I|].
        intros (_ & N). apply D in N. discriminate N.
Qed.

Lemma column_insights_shape_witness :
  In (volatility_sentence "orders")
     (column_insights "orders" (Int64 [1; 1; 1; 1; 1; 1; 30])).
Proof.
  apply (proj2 (proj2 (proj2 (column_insights_shape
                                "orders" (Int64 [1; 1; 1; 1; 1; 1; 30]))))).
  split; vm_compute; discriminate.
Defined.




Lemma growth_nan_end (first : F64.t) (rest : list F64.t) (growth : F64.t) :
  F64.isnan first = true \/ F64.isnan (last rest first) = true ->
  growth_rate (NumCol (Float64 (first :: rest))) = Ok growth ->
  growth = F64.nan.
Proof.
  rewrite growth_rate_num. intros H [= <-].
  destruct (F64.eqb first zero); [reflexivity|].
  destruct H as [H|H]; apply isnan_nan in H; rewrite H.
  - now rewrite sub_nan_r, div_nan_l, mul_nan_l.
  - now rewrite sub_nan_l, div_nan_l, mul_nan_l.
Qed.

(** X14: the margin-pressure rule reads the "revenue" and "cost" columns
    as they are stored, missing cells included: when the first or the last
    stored cell of either float64 column is missing, its growth rate is
    NaN and the margin-pressure sentence is not emitted, whatever the
    other cells hold. *)
Theorem margin_rule_missing_end (df : dataframe)
    (rev_first cost_first : F64.t) (rev_rest cost_rest : list F64.t) :
  get_col "revenue" df = Some (NumCol (Float64 (rev_first :: rev_rest))) ->
  get_col "cost" df = Some (NumCol (Float64 (cost_first :: cost_rest))) ->
  F64.isnan rev_first = true
  \/ F64.isnan (last rev_rest rev_first) = true
  \/ F64.isnan cost_first = true
  \/ F64.isnan (last cost_rest cost_first) = true ->
  exists insights,
    finance_insights df = Ok insights /\ ~ In margin_sentence insights.
Proof.
  intros Hrev Hcost Missing.
  destruct (finance_insights_margin_rule df) as (a & N & [[E _]|[_ F]]).
  { now apply (get_col_select_number _ _ _ Hrev) in E. }
  pose proof (growth_rate_num rev_first rev_rest) as Grev.
  pose proof (growth_rate_num cost_first cost_rest) as Gcost.
  set (rev_growth := if F64.eqb rev_first zero then _ else _) in *.
  set (cost_growth := if F64.eqb cost_first zero then _ else _) in *.
  rewrite (margin_rule_numeric df a _ _ _ _ Hrev Hcost Grev Gcost) in F.
  assert (G : F64.gtb cost_growth rev_growth = false).
  { unfold F64.gtb.
    destruct Missing as [H|[H|[H|H]]].
    - rewrite (growth_nan_end _ _ _ (or_introl H) Grev). apply ltb_nan_l.
    - rewrite (growth_nan_end _ _ _ (or_intror H) Grev). apply ltb_nan_l.
    - rewrite (growth_nan_end _ _ _ (or_introl H) Gcost). apply ltb_nan_r.
    - rewrite (growth_nan_end _ _ _ (or_intror H) Gcost). apply ltb_nan_r. }
  rewrite G in F. exists a. split; [exact F|exact N].
Qed.

Lemma margin_rule_missing_end_witness :
  exists insights,
    finance_insights
      [("revenue", NumCol (Float64 [F64.of_Z 100; F64.of_Z 80; F64.nan]));
       ("cost", NumCol (Float64 [F64.of_Z 50; F64.of_Z 70; F64.of_Z 90]))]
    = Ok insights
    /\ ~ In margin_sentence insights.
Proof.
  apply (margin_rule_missing_end
           [("revenue", NumCol (Float64 [F64.of_Z 100; F64.of_Z 80; F64.nan]));
            ("cost", NumCol (Float64 [F64.of_Z 50; F64.of_Z 70; F64.of_Z 90]))]
           (F64.of_Z 100) (F64.of_Z 50)
           [F64.of_Z 80; F64.nan] [F64.of_Z 70; F64.of_Z 90]
           eq_refl eq_refl).
  right. left. reflexivity.
Defined.

(** ** The temporal probe, further *)

Lemma set_col_columns (name : string) (c c0 : column) (df : dataframe) :
  get_col name df = Some c0 -> columns (set_col name c df) = columns df.
Proof.
  induction df as [|[n c1] df IH]; simpl; [discriminate|].
  destruct (String.eqb name n); [reflexivity|].
  intro H. simpl. f_equal. now apply IH.
Qed.

Lemma select_number_app (a b : dataframe) :
  select_number (a ++ b)%list = (select_number a ++ select_number b)%list.
Proof.
  induction a as [|[n c] a IH]; [reflexivity|].
  destruct c; simpl; now rewrite IH.
Qed.

(** The Finance rules read a frame through its numeric columns and its
    "revenue" and "cost" columns only. *)
Lemma finance_insights_ext (df df' : dataframe) :
  select_number df = select_number df' ->
  get_col "revenue" df = get_col "revenue" df' ->
  get_col "cost" df = get_col "cost" df' ->
  finance_insights df = finance_insights df'.
Proof.
  intros S R C. unfold finance_insights, margin_rule, getitem.
  now rewrite !has_col_get_col, S, R, C.
Qed.

(** The Marketing rules read a frame through the presence of "leads" and
    its "conversion", "traffic" and "churn" columns only. *)
Lemma marketing_insights_ext (df df' : dataframe) :
  has_col "leads" df = has_col "leads" df' ->
  get_col "conversion" df = get_col "conversion" df' ->
  get_col "traffic" df = get_col "traffic" df' ->
  get_col "churn" df = get_col "churn" df' ->
  marketing_insights df = marketing_insights df'.
Proof.
  intros L C T H.
  unfold marketing_insights, conversion_rule, traffic_rule, churn_rule,
    getitem.
  rewrite L. rewrite !(has_col_get_col "conversion"),
    !(has_col_get_col "traffic"), !(has_col_get_col "churn").
  now rewrite C, T, H.
Qed.

Section ProbeFurther.

Variable parse_dates : list (option string) -> option (list (option Z)).

Lemma probe_columns (cols : list string) (df : dataframe) :
  columns (snd (probe parse_dates cols df)) = columns df.
Proof.
  induction cols as [|col cols IH]; [reflexivity|].
  simpl. destruct (get_col col df) as [series|] eqn:G; [|exact IH].
  destruct (to_datetime parse_dates series); [|exact IH].
  simpl. now apply set_col_columns with (c0 := series).
Qed.

(** X15: the probe leaves the column names of the frame and their order
    as they were, whatever it converts; the Domain is therefore the same
    whether [classify_domain] runs before or after the probe, and the
    columns a rule looks up by name are still there. *)
Theorem detect_date_column_keeps_names (df : dataframe) :
  columns (snd (detect_date_column parse_dates df)) = columns df
  /\ classify_domain (labels (snd (detect_date_column parse_dates df)))
     = classify_domain (labels df)
  /\ (forall name,
        has_col name (snd (detect_date_column parse_dates df))
        = has_col name df)
  /\ forall name,
       fst (detect_date_column parse_dates df) = Some name ->
       In name (columns df).
Proof.
  pose proof (probe_columns (columns df) df) as C.
  fold (detect_date_column parse_dates df) in C.
  split; [exact C|]. split; [unfold labels; now rewrite C|].
  split; [intro name; unfold has_col; now rewrite C|].
  intro name. unfold detect_date_column.
  assert (G : forall cols,
             fst (probe parse_dates cols df) = Some name -> In name cols).
  { induction cols as [|col cols IH]; simpl; [discriminate|].
    destruct (get_col col df) as [series|];
      [|intro H; right; now apply IH].
    destruct (to_datetime parse_dates series);
      [|intro H; right; now apply IH].
    simpl. intros [= ->]. now left. }
  apply G.
Qed.

(** What [to_datetime] returns is a column of timestamps. *)
Lemma to_datetime_stamps (c stamps : column) :
  to_datetime parse_dates c = Some stamps ->
  exists vals, stamps = TimeCol vals.
Proof.
  destruct c as [[v|v|v]|v|v]; simpl.
  - intros [= <-]. eexists; reflexivity.
  - intros [= <-]. eexists; reflexivity.
  - destruct (forallb _ v); [|discriminate]. intros [= <-].
    eexists; reflexivity.
  - destruct (parse_dates v); [|discriminate]. intros [= <-].
    eexists; reflexivity.
  - intros [= <-]. eexists; reflexivity.
Qed.

Lemma to_datetime_fixed (c stamps : column) :
  to_datetime parse_dates c = Some stamps ->
  to_datetime parse_dates stamps = Some stamps.
Proof.
  intro T. destruct (to_datetime_stamps _ _ T) as (vals & ->). reflexivity.
Qed.

(** X16: on a frame whose columns have names of their own, running the
    probe on the frame it left returns the same name and leaves that frame
    as it is: the conversion is done once. *)
Theorem detect_date_column_idempotent (df : dataframe) :
  NoDup (columns df) ->
  detect_date_column parse_dates (snd (detect_date_column parse_dates df))
  = detect_date_column parse_dates df.
Proof.
  intro D.
  destruct (first_coercible parse_dates df)
    as [H|(pre & name & c & post & stamps & -> & H & T)].
  - rewrite (probe_none parse_dates df H). cbn [snd].
    now apply probe_none.
  - pose proof (nodup_middle _ _ _ _ D) as N.
    rewrite (probe_first parse_dates pre post name c stamps N H T).
    cbn [snd].
    apply (probe_first parse_dates pre post name stamps stamps N H).
    now apply to_datetime_fixed with (c := c).
Qed.



Lemma get_col_replaced (other name : string) (c c' : column)
    (pre post : dataframe) :
  other <> name ->
  get_col other (pre ++ (name, c) :: post)%list
  = get_col other (pre ++ (name, c') :: post)%list.
Proof.
  intro N. rewrite !get_col_app. simpl.
  destruct (String.eqb_spec other name) as [E|_]; [contradiction|reflexivity].
Qed.

Lemma has_col_middle (name : string) (c : column) (pre post : dataframe) :
  has_col name (pre ++ (name, c) :: post)%list = true.
Proof.
  unfold has_col, columns. rewrite map_app, existsb_app. simpl.
  rewrite String.eqb_refl. now rewrite orb_true_r.
Qed.

(** A float64 or int64 series converts, to as many timestamps as it has
    cells. *)
Lemma epoch_converts (series : numeric) :
  epoch_dtype series = true ->
  exists stamps,
    to_datetime parse_dates (NumCol series) = Some (TimeCol stamps)
    /\ len stamps = num_len series.
Proof.
  destruct series as [v|v|v]; simpl; try discriminate; intros _;
    eexists; (split; [reflexivity|]); unfold len; now rewrite length_map.
Qed.


(** X18: when the first column that converts is a column of strings or of
    timestamps named neither "revenue" nor "cost" (a date column), the
    Finance rules give on the frame left by the probe what they give on
    the frame as loaded, and the pipeline of a Finance frame returns the
    narrative of those insights or raises what they raise. *)
Theorem detect_date_column_spares_finance (df pre post : dataframe)
    (name : string) (c stamps : column) :
  NoDup (columns df) ->
  df = (pre ++ (name, c) :: post)%list ->
  Forall (fails parse_dates) pre ->
  to_datetime parse_dates c = Some stamps ->
  is_num c = false ->
  name <> "revenue" ->
  name <> "cost" ->
  finance_insights (snd (detect_date_column parse_dates df))
  = finance_insights df
  /\ (classify_domain (labels df) = Ok Finance ->
      pipeline parse_dates df
      = (insights <- finance_insights df ;;
         Ok (rewrite_insights insights Finance))).
Proof.
  intros D -> H T Nc Nr No.
  pose proof (probe_first parse_dates pre post name c stamps
                (nodup_middle _ _ _ _ D) H T) as P.
  assert (F : finance_insights (pre ++ (name, stamps) :: post)%list
              = finance_insights (pre ++ (name, c) :: post)%list).
  { apply finance_insights_ext.
    - rewrite !select_number_app. f_equal.
      destruct (to_datetime_stamps _ _ T) as (vals & ->).
      destruct c as [v|v|v]; [discriminate Nc|reflexivity|reflexivity].
    - apply get_col_replaced. congruence.
    - apply get_col_replaced. congruence. }
  split; [rewrite P; exact F|].
  intro Dom. unfold pipeline. rewrite P.
  replace (labels (pre ++ (name, stamps) :: post)%list)
    with (labels (pre ++ (name, c) :: post)%list)
    by (unfold labels, columns; now rewrite !map_app).
  rewrite Dom, F. reflexivity.
Qed.


(** X20: the Marketing rules never read the cells of the "leads" column,
    only that it is there: replacing it by any other column gives the same
    result. A Marketing frame whose columns have names of their own and
    whose first column is a float64 or int64 "leads" column, which the
    probe converts, therefore gets from the pipeline the narrative of the
    rules applied to the frame as loaded. *)
Theorem marketing_leads_unread (pre post : dataframe) (c c' : column)
    (series : numeric) (rest : dataframe) :
  marketing_insights (pre ++ ("leads", c) :: post)%list
  = marketing_insights (pre ++ ("leads", c') :: post)%list
  /\ (NoDup ("leads" :: columns rest) ->
      epoch_dtype series = true ->
      classify_domain (LStr "leads" :: labels rest) = Ok Marketing ->
      pipeline parse_dates (("leads", NumCol series) :: rest)
      = (insights <- marketing_insights (("leads", NumCol series) :: rest) ;;
         Ok (rewrite_insights insights Marketing))).
Proof.
  assert (E : forall pre post c c',
             marketing_insights (pre ++ ("leads", c) :: post)%list
             = marketing_insights (pre ++ ("leads", c') :: post)%list).
  { intros p q d d'. apply marketing_insights_ext.
    - now rewrite !has_col_middle.
    - apply get_col_replaced. discriminate.
    - apply get_col_replaced. discriminate.
    - apply get_col_replaced. discriminate. }
  split; [apply E|].
  intros _ Ep Dom.
  destruct (epoch_converts series Ep) as (stamps & T & _).
  unfold pipeline. rewrite (probe_head parse_dates _ _ _ rest T).
  change (labels (("leads", TimeCol stamps) :: rest))
    with (LStr "leads" :: labels rest).
  rewrite Dom. cbn [bind].
  pose proof (E [] rest (TimeCol stamps) (NumCol series)) as E'.
  cbn [app] in E'. now rewrite E'.
Qed.


End ProbeFurther.

Lemma detect_date_column_idempotent_witness :
  detect_date_column (fun _ => None)
    (snd (detect_date_column (fun _ => None)
            [("notes", TextCol [Some "a"; Some "b"]);
             ("units", NumCol (Int64 [3; 4]))]))
  = (Some "units",
     [("notes", TextCol [Some "a"; Some "b"]);
      ("units", TimeCol [Some 3; Some 4])]).
Proof.
  rewrite (detect_date_column_idempotent (fun _ => None)
             [("notes", TextCol [Some "a"; Some "b"]);
              ("units", NumCol (Int64 [3; 4]))]).
  - reflexivity.
  - repeat constructor; simpl; intuition discriminate.
Defined.


Lemma detect_date_column_spares_finance_witness :
  pipeline (fun dates => Some (map (fun _ => Some 0) dates))
    [("month", TextCol [Some "2024-01"; Some "2024-02"]);
     ("revenue", NumCol (Int64 [100; 80]));
     ("cost", NumCol (Int64 [50; 70]))]
  = Ok (rewrite_insights
          ["Revenue declined by 20.0% over the period.";
           "Cost increased by 40.0% over the period.";
           "Costs grew faster than revenue, leading to margin pressure."]
          Finance).
Proof.
  rewrite (proj2 (detect_date_column_spares_finance
             (fun dates => Some (map (fun _ => Some 0) dates))
             [("month", TextCol [Some "2024-01"; Some "2024-02"]);
              ("revenue", NumCol (Int64 [100; 80]));
              ("cost", NumCol (Int64 [50; 70]))]
             [] [("revenue", NumCol (Int64 [100; 80]));
                 ("cost", NumCol (Int64 [50; 70]))]
             "month" (TextCol [Some "2024-01"; Some "2024-02"])
             (TimeCol [Some 0; Some 0])
             ltac:(repeat constructor; simpl; intuition discriminate)
             eq_refl ltac:(constructor) eq_refl eq_refl
             ltac:(discriminate) ltac:(discriminate))).
  - vm_compute. reflexivity.
  - vm_compute. reflexivity.
Defined.


Lemma marketing_leads_unread_witness :
  pipeline (fun _ => None)
    [("leads", NumCol (Int64 [10; 20]));
     ("conversion", NumCol (Int64 [5; 3]))]
  = Ok (rewrite_insights [conversion_sentence] Marketing).
Proof.
  rewrite (proj2 (marketing_leads_unread (fun _ => None) [] []
                    (NumCol (Float64 [])) (NumCol (Float64 []))
                    (Int64 [10; 20])
                    [("conversion", NumCol (Int64 [5; 3]))])).
  - vm_compute. reflexivity.
  - repeat constructor; simpl; intuition discriminate.
  - reflexivity.
  - vm_compute. reflexivity.
Defined.


(** ** The Marketing rules *)









(** ** The pipeline on text *)

Lemma select_number_text (df : dataframe) :
  (forall name c, In (name, c) df -> is_text c = true) ->
  select_number df = [].
Proof.
  induction df as [|[n c] df IH]; intro H; [reflexivity|].
  assert (T : is_text c = true) by (apply (H n); now left).
  destruct c; try discriminate T. simpl.
  apply IH. intros name c I. apply (H name). now right.
Qed.

(** X23: on a frame whose columns have names of their own and are columns
    of strings none of which converts to timestamps, the probe changes
    nothing, and when the labels classify as Finance the pipeline returns
    the no-pattern sentence: the Finance rules find no numeric column and
    stop before the margin-pressure rule, even with text columns named
    "revenue" and "cost". *)
Theorem pipeline_text_only
    (parse_dates : list (option string) -> option (list (option Z)))
    (df : dataframe) :
  NoDup (columns df) ->
  (forall name c, In (name, c) df -> is_text c = true) ->
  Forall (fails parse_dates) df ->
  classify_domain (labels df) = Ok Finance ->
  detect_date_column parse_dates df = (None, df)
  /\ finance_insights df = Ok []
  /\ pipeline parse_dates df = Ok no_pattern_sentence.
Proof.
  intros _ Text H Dom.
  pose proof (probe_none parse_dates df H) as P.
  assert (F : finance_insights df = Ok []).
  { unfold finance_insights. now rewrite (select_number_text df Text). }
  split; [exact P|]. split; [exact F|].
  unfold pipeline. rewrite P, Dom. cbn [bind]. rewrite F. reflexivity.
Qed.

Lemma pipeline_text_only_witness :
  pipeline (fun _ => None)
    [("revenue", TextCol [Some "high"; Some "low"]);
     ("cost", TextCol [Some "low"; None])]
  = Ok no_pattern_sentence.
Proof.
  apply (pipeline_text_only (fun _ => None)
           [("revenue", TextCol [Some "high"; Some "low"]);
            ("cost", TextCol [Some "low"; None])]).
  - repeat constructor; simpl; intuition discriminate.
  - intros name c [[= <- <-]|[[= <- <-]|[]]]; reflexivity.
  - repeat constructor.
  - vm_compute. reflexivity.
Defined.

Lemma detect_date_column_keeps_names_witness :
  In "units"
     (columns [("notes", TextCol [Some "a"; Some "b"]);
               ("units", NumCol (Int64 [3; 4]))]).
Proof.
  apply (proj2 (proj2 (proj2 (detect_date_column_keeps_names (fun _ => None)
           [("notes", TextCol [Some "a"; Some "b"]);
            ("units", NumCol (Int64 [3; 4]))])))).
  reflexivity.
Defined.
